(** * MIDIVisualizer host shell: window/session actions and the main loop

    Shallow embedding of [src/main.cpp]: the GLFW callbacks, [performAction]
    and [main].  Everything the shell talks to (GLFW, gl3w, ImGui, the
    Renderer, the Configuration parser, the visual State, std::cerr) lives
    outside the file; it is taken as an abstract environment, the [World],
    reached only through the calls the source makes.  A run of the shell is a
    function of the world it starts in and yields the value returned, the
    world reached and the transcript of the external calls, each with the
    value it returned. *)

From Stdlib Require Import ZArith List Bool String Lia.
Import ListNotations.
Local Open Scope string_scope.
Local Open Scope list_scope.
Local Open Scope Z_scope.

Set Implicit Arguments.

(** ** Data *)

(** [glm::ivec4]: four C++ [int]s.  The shell never computes with the
    components (they are copied between GLFW calls), so they are kept as
    integers without a wrap-around. *)
Record ivec4 := mk_ivec4 { v0 : Z; v1 : Z; v2 : Z; v3 : Z }.

(** [glm::ivec4 frame(0)] *)
Definition ivec4_zero : ivec4 := mk_ivec4 0 0 0 0.

(** A [float] or a [double] that is only handed from one collaborator to
    another is kept as the integer of its IEEE-754 bit pattern. *)
Definition float32 := Z.
Definition double64 := Z.

Definition GLFW_TRUE : Z := 1.
Definition GLFW_FALSE : Z := 0.
Definition GL_TRUE : Z := 1.
Definition GLFW_OPENGL_CORE_PROFILE : Z := 204801. (* 0x00032001 *)

(** The window hints and attributes named in main.cpp. *)
Inductive GlfwAttrib :=
| GLFW_CONTEXT_VERSION_MAJOR
| GLFW_CONTEXT_VERSION_MINOR
| GLFW_OPENGL_FORWARD_COMPAT
| GLFW_OPENGL_PROFILE
| GLFW_VISIBLE
| GLFW_TRANSPARENT_FRAMEBUFFER
| GLFW_RESIZABLE.

(** [GLFWmonitor*]: a non-null monitor handle; a nullable one is an option. *)
Inductive GLFWmonitor := MonitorHandle (id : nat).

(** [GLFWvidmode], the fields main.cpp reads. *)
Record GLFWvidmode := mk_vidmode { width : Z; height : Z; refreshRate : Z }.

(** Modelled from the spec: the declaration of [SystemAction] is not among
    the sources.  The spec's SessionAction has the variants NONE,
    FULLSCREEN_TOGGLE, RESIZE(width, height), LOCK_SIZE, UNLOCK_SIZE and QUIT;
    main.cpp names them [SystemAction::FULLSCREEN], [RESIZE], [FIX_SIZE],
    [FREE_SIZE] and [QUIT], switches on the field [type] and reads the
    requested size from [data[0]] and [data[1]]. *)
Inductive SystemActionType := NONE | FIX_SIZE | FREE_SIZE | FULLSCREEN | QUIT | RESIZE.

Record SystemAction := mk_action { type : SystemActionType; data : ivec4 }.

(** The implicit conversion used at main.cpp:213 and main.cpp:218, where an
    enumerator is passed for a [SystemAction]. *)
Definition action_of (t : SystemActionType) : SystemAction := mk_action t ivec4_zero.

Definition resize_to (w h : Z) : SystemAction := mk_action RESIZE (mk_ivec4 w h 0 0).

(** Modelled from the spec: [Configuration] is declared in
    helpers/Configuration.h, which is not among the sources.  These are the
    members main.cpp reads: the structured options of spec section 6 (window
    size and position, visibility, transparency, fullscreen flag, GUI scale,
    direct-export parameters, initial content paths). *)
Record Export := mk_export { path : string }.

Definition ConfigArgs := list (string * list string).

Record Configuration := mk_config {
  showHelp : bool;
  showVersion : bool;
  hideWindow : bool;
  preventTransparency : bool;
  windowSize : Z * Z;
  windowPos : Z * Z;
  lastMidiPath : string;
  lastConfigPath : string;
  guiScale : float32;
  exporting : Export;
  fullscreen : bool;
  args : ConfigArgs
}.

Definition set_preventTransparency (b : bool) (c : Configuration) : Configuration :=
  mk_config (showHelp c) (showVersion c) (hideWindow c) b (windowSize c) (windowPos c)
            (lastMidiPath c) (lastConfigPath c) (guiScale c) (exporting c) (fullscreen c)
            (args c).

(** [std::string::empty] *)
Definition empty (s : string) : bool :=
  match s with EmptyString => true | String _ _ => false end.

(** What GLFW hands to the callbacks main.cpp registers (lines 189-192). *)
Inductive InputEvent :=
| FramebufferSizeEvent (w h : Z)
| KeyEvent (key scancode action mods : Z)
| ScrollEvent (xoffset yoffset : double64)
| CharEvent (codepoint : Z).

(** ** The external calls

    One constructor per function of a collaborator that main.cpp calls.  A
    call that returns something carries the returned value as its last
    argument, so that a list of calls is a transcript of the run. *)
Inductive Call :=
(* GLFW *)
| CglfwInit (ok : bool)
| CglfwTerminate
| CglfwWindowHint (hint : GlfwAttrib) (v : Z)
| CglfwCreateWindow (w h : Z) (title : string) (created : bool)
| CglfwDestroyWindow
| CglfwMakeContextCurrent
| CglfwSetWindowPos (x y : Z)
| CglfwGetWindowPos (p : Z * Z)
| CglfwSetWindowSize (w h : Z)
| CglfwGetWindowSize (s : Z * Z)
| CglfwGetFramebufferSize (s : Z * Z)
| CglfwGetWindowAttrib (a : GlfwAttrib) (v : Z)
| CglfwSetWindowAttrib (a : GlfwAttrib) (v : Z)
| CglfwGetWindowMonitor (m : option GLFWmonitor)
| CglfwGetPrimaryMonitor (m : GLFWmonitor)
| CglfwGetVideoMode (m : GLFWmonitor) (mode : GLFWvidmode)
| CglfwSetWindowMonitor (m : option GLFWmonitor) (x y w h r : Z)
| CglfwSwapInterval (n : Z)
| CglfwSetWindowShouldClose (v : Z)
| CglfwWindowShouldClose (b : bool)
| CglfwSetWindowUserPointer
| CglfwGetWindowUserPointer
| CglfwSetFramebufferSizeCallback
| CglfwSetKeyCallback
| CglfwSetScrollCallback
| CglfwSetCharCallback
| CglfwGetTime (t : double64)
| CglfwSwapBuffers
| CglfwPollEvents (evs : list InputEvent)
(* gl3w *)
| Cgl3wInit (status : Z)
| Cgl3wIsSupported (major minor : Z) (ok : bool)
(* Configuration, std::cerr, ResourcesManager, State *)
| CConfiguration (internalConfigPath : string) (argv : list string) (config : Configuration)
| CConfiguration_printHelp
| CConfiguration_printVersion
| Ccerr (msg : string)
| CResourcesManager_loadResources
| CState
| CState_load_path (p : string)
| CState_load_args (a : ConfigArgs)
(* Renderer *)
| CRenderer (config : Configuration)
| CRenderer_loadFile (p : string)
| CRenderer_setState
| CRenderer_resize (w h : Z)
| CRenderer_rescale (xscale : float32)
| CRenderer_keyPressed (key action : Z)
| CRenderer_resizeAndRescale (w h : Z) (scale_num scale_den : Z)
| CRenderer_setGUIScale (s : float32)
| CRenderer_startDirectRecording (e : Export) (size : Z * Z) (success : bool)
| CRenderer_draw (time : double64) (action : SystemAction)
| CRenderer_clean
(* ImGui *)
| CImGui_CreateContext
| CImGui_configureFont
| CImGui_configureStyle
| CImGui_ImplGlfw_InitForOpenGL (install_callbacks : bool)
| CImGui_ImplOpenGL3_Init (glsl_version : string)
| CImGui_ImplOpenGL3_NewFrame
| CImGui_ImplGlfw_NewFrame
| CImGui_NewFrame
| CImGui_Render
| CImGui_ImplOpenGL3_RenderDrawData
| CImGui_WantCaptureKeyboard (b : bool)
| CImGui_ImplGlfw_KeyCallback (key scancode action mods : Z)
| CImGui_ImplGlfw_ScrollCallback (xoffset yoffset : double64)
| CImGui_ImplGlfw_CharCallback (codepoint : Z)
| CImGui_ImplOpenGL3_Shutdown
| CImGui_ImplGlfw_Shutdown
| CImGui_DestroyContext
| CImFontConfig.

(** ** The environment

    [exec c w] is the world after the call [c] was made in [w]; the other
    fields say what a call returns in a given world.  [swap_interval] has no
    GLFW getter: it observes the interval the context currently presents
    with. *)
Class Host (World : Type) := {
  exec : Call -> World -> World;
  init_ok : World -> bool;
  config_of : string -> list string -> World -> Configuration;
  window_created : Z -> Z -> string -> World -> bool;
  gl3w_status : World -> Z;
  gl3w_supported : Z -> Z -> World -> bool;
  window_pos : World -> Z * Z;
  window_size : World -> Z * Z;
  framebuffer_size : World -> Z * Z;
  window_attrib : GlfwAttrib -> World -> Z;
  window_monitor : World -> option GLFWmonitor;
  primary_monitor : World -> GLFWmonitor;
  video_mode : GLFWmonitor -> World -> GLFWvidmode;
  should_close : World -> bool;
  swap_interval : World -> Z;
  clock : World -> double64;
  pending_events : World -> list InputEvent;
  want_capture_keyboard : World -> bool;
  recording_started : Export -> Z * Z -> World -> bool;
  draw_action : double64 -> World -> SystemAction
}.

(** ** The monad of the shell: the world is threaded, the calls are recorded *)

Record Result (World A : Type) := mkResult {
  value : A;
  world : World;
  trace : list Call
}.

Definition M (World A : Type) : Type := World -> Result World A.

Definition ret {World A} (a : A) : M World A := fun w => mkResult a w [].

Definition bind {World A B} (m : M World A) (f : A -> M World B) : M World B :=
  fun w =>
    let r := m w in
    let r' := f (value r) (world r) in
    mkResult (value r') (world r') (trace r ++ trace r').

Notation "x <- m ;; k" := (bind m (fun x => k))
  (at level 61, m at next level, right associativity).
Notation "m ;; k" := (bind m (fun _ => k))
  (at level 61, right associativity).

(** A call that returns nothing. *)
Definition call {World} `{Host World} (c : Call) : M World unit :=
  fun w => mkResult tt (exec c w) [c].

(** A call that returns a value and may change the world. *)
Definition ask {World} `{Host World} {A} (c : A -> Call) (q : World -> A) : M World A :=
  fun w => mkResult (q w) (exec (c (q w)) w) [c (q w)].

(** A getter: it returns a value and leaves the world as it is. *)
Definition get {World} `{Host World} {A} (c : A -> Call) (q : World -> A) : M World A :=
  fun w => mkResult (q w) w [c (q w)].

Section Shell.

Context {World : Type} `{Host World}.

Local Abbreviation M := (M World).

(** *** The calls, under the names of the source *)

Definition glfwInit : M bool := ask CglfwInit init_ok.
Definition glfwTerminate : M unit := call CglfwTerminate.
Definition glfwWindowHint (hint : GlfwAttrib) (v : Z) : M unit := call (CglfwWindowHint hint v).
Definition glfwCreateWindow (w h : Z) (title : string) : M bool :=
  ask (CglfwCreateWindow w h title) (window_created w h title).
Definition glfwDestroyWindow : M unit := call CglfwDestroyWindow.
Definition glfwMakeContextCurrent : M unit := call CglfwMakeContextCurrent.
Definition glfwSetWindowPos (x y : Z) : M unit := call (CglfwSetWindowPos x y).
Definition glfwGetWindowPos : M (Z * Z) := get CglfwGetWindowPos window_pos.
Definition glfwSetWindowSize (w h : Z) : M unit := call (CglfwSetWindowSize w h).
Definition glfwGetWindowSize : M (Z * Z) := get CglfwGetWindowSize window_size.
Definition glfwGetFramebufferSize : M (Z * Z) := get CglfwGetFramebufferSize framebuffer_size.
Definition glfwGetWindowAttrib (a : GlfwAttrib) : M Z :=
  get (CglfwGetWindowAttrib a) (window_attrib a).
Definition glfwSetWindowAttrib (a : GlfwAttrib) (v : Z) : M unit :=
  call (CglfwSetWindowAttrib a v).
Definition glfwGetWindowMonitor : M (option GLFWmonitor) :=
  get CglfwGetWindowMonitor window_monitor.
Definition glfwGetPrimaryMonitor : M GLFWmonitor := get CglfwGetPrimaryMonitor primary_monitor.
Definition glfwGetVideoMode (m : GLFWmonitor) : M GLFWvidmode :=
  get (CglfwGetVideoMode m) (video_mode m).
Definition glfwSetWindowMonitor (m : option GLFWmonitor) (x y w h r : Z) : M unit :=
  call (CglfwSetWindowMonitor m x y w h r).
Definition glfwSwapInterval (n : Z) : M unit := call (CglfwSwapInterval n).
Definition glfwSetWindowShouldClose (v : Z) : M unit := call (CglfwSetWindowShouldClose v).
Definition glfwWindowShouldClose : M bool := get CglfwWindowShouldClose should_close.
Definition glfwSetWindowUserPointer : M unit := call CglfwSetWindowUserPointer.
Definition glfwGetWindowUserPointer : M unit := get (fun _ => CglfwGetWindowUserPointer) (fun _ => tt).
Definition glfwSetFramebufferSizeCallback : M unit := call CglfwSetFramebufferSizeCallback.
Definition glfwSetKeyCallback : M unit := call CglfwSetKeyCallback.
Definition glfwSetScrollCallback : M unit := call CglfwSetScrollCallback.
Definition glfwSetCharCallback : M unit := call CglfwSetCharCallback.
Definition glfwGetTime : M double64 := get CglfwGetTime clock.
Definition glfwSwapBuffers : M unit := call CglfwSwapBuffers.

Definition gl3wInit : M Z := ask Cgl3wInit gl3w_status.
Definition gl3wIsSupported (major minor : Z) : M bool :=
  get (Cgl3wIsSupported major minor) (gl3w_supported major minor).

Definition Configuration_new (p : string) (argv : list string) : M Configuration :=
  ask (CConfiguration p argv) (config_of p argv).
Definition Configuration_printHelp : M unit := call CConfiguration_printHelp.
Definition Configuration_printVersion : M unit := call CConfiguration_printVersion.
Definition cerr (msg : string) : M unit := call (Ccerr msg).
Definition ResourcesManager_loadResources : M unit := call CResourcesManager_loadResources.
Definition State_new : M unit := call CState.
Definition State_load_path (p : string) : M unit := call (CState_load_path p).
Definition State_load_args (a : ConfigArgs) : M unit := call (CState_load_args a).

Definition Renderer_new (config : Configuration) : M unit := call (CRenderer config).
Definition Renderer_loadFile (p : string) : M unit := call (CRenderer_loadFile p).
Definition Renderer_setState : M unit := call CRenderer_setState.
Definition Renderer_resize (w h : Z) : M unit := call (CRenderer_resize w h).
Definition Renderer_rescale (x : float32) : M unit := call (CRenderer_rescale x).
Definition Renderer_keyPressed (key action : Z) : M unit := call (CRenderer_keyPressed key action).
Definition Renderer_resizeAndRescale (w h num den : Z) : M unit :=
  call (CRenderer_resizeAndRescale w h num den).
Definition Renderer_setGUIScale (s : float32) : M unit := call (CRenderer_setGUIScale s).
Definition Renderer_startDirectRecording (e : Export) (size : Z * Z) : M bool :=
  ask (CRenderer_startDirectRecording e size) (recording_started e size).
Definition Renderer_draw (time : double64) : M SystemAction :=
  ask (CRenderer_draw time) (draw_action time).
Definition Renderer_clean : M unit := call CRenderer_clean.

Definition ImGui_CreateContext : M unit := call CImGui_CreateContext.
Definition ImGui_configureFont : M unit := call CImGui_configureFont.
Definition ImGui_configureStyle : M unit := call CImGui_configureStyle.
Definition ImGui_ImplGlfw_InitForOpenGL (install : bool) : M unit :=
  call (CImGui_ImplGlfw_InitForOpenGL install).
Definition ImGui_ImplOpenGL3_Init (v : string) : M unit := call (CImGui_ImplOpenGL3_Init v).
Definition ImGui_ImplOpenGL3_NewFrame : M unit := call CImGui_ImplOpenGL3_NewFrame.
Definition ImGui_ImplGlfw_NewFrame : M unit := call CImGui_ImplGlfw_NewFrame.
Definition ImGui_NewFrame : M unit := call CImGui_NewFrame.
Definition ImGui_Render : M unit := call CImGui_Render.
Definition ImGui_ImplOpenGL3_RenderDrawData : M unit := call CImGui_ImplOpenGL3_RenderDrawData.
Definition ImGui_WantCaptureKeyboard : M bool :=
  get CImGui_WantCaptureKeyboard want_capture_keyboard.
Definition ImGui_ImplGlfw_KeyCallback (key scancode action mods : Z) : M unit :=
  call (CImGui_ImplGlfw_KeyCallback key scancode action mods).
Definition ImGui_ImplGlfw_ScrollCallback (x y : double64) : M unit :=
  call (CImGui_ImplGlfw_ScrollCallback x y).
Definition ImGui_ImplGlfw_CharCallback (c : Z) : M unit := call (CImGui_ImplGlfw_CharCallback c).
Definition ImGui_ImplOpenGL3_Shutdown : M unit := call CImGui_ImplOpenGL3_Shutdown.
Definition ImGui_ImplGlfw_Shutdown : M unit := call CImGui_ImplGlfw_Shutdown.
Definition ImGui_DestroyContext : M unit := call CImGui_DestroyContext.
Definition ImFontConfig_new : M unit := call CImFontConfig.

(** *** Callbacks (main.cpp:20-42) *)

Definition resize_callback (w h : Z) : M unit :=
  glfwGetWindowUserPointer ;;
  Renderer_resize w h.

(** Defined in main.cpp, registered nowhere. *)
Definition rescale_callback (xscale yscale : float32) : M unit :=
  glfwGetWindowUserPointer ;;
  Renderer_rescale xscale.

Definition key_callback (key scancode action mods : Z) : M unit :=
  capture <- ImGui_WantCaptureKeyboard ;;
  (if negb capture
   then glfwGetWindowUserPointer ;; Renderer_keyPressed key action
   else ret tt) ;;
  ImGui_ImplGlfw_KeyCallback key scancode action mods.

Definition scroll_callback (xoffset yoffset : double64) : M unit :=
  ImGui_ImplGlfw_ScrollCallback xoffset yoffset.

(** The callback main.cpp registered for each kind of event. *)
Definition deliver (e : InputEvent) : M unit :=
  match e with
  | FramebufferSizeEvent w h => resize_callback w h
  | KeyEvent key scancode action mods => key_callback key scancode action mods
  | ScrollEvent x y => scroll_callback x y
  | CharEvent c => ImGui_ImplGlfw_CharCallback c
  end.

Fixpoint deliver_all (evs : list InputEvent) : M unit :=
  match evs with
  | [] => ret tt
  | e :: evs' => deliver e ;; deliver_all evs'
  end.

(** [glfwPollEvents] processes the pending events and runs, inside the call
    and on the same thread, the callback registered for each. *)
Definition glfwPollEvents : M unit :=
  evs <- ask CglfwPollEvents pending_events ;;
  deliver_all evs.

(** *** performAction (main.cpp:46-92)

    [frame] is passed by reference in the source: the function returns its
    value at exit. *)
Definition performAction (action : SystemAction) (frame : ivec4) : M ivec4 :=
  match type action with
  | FULLSCREEN =>
      monitor <- glfwGetWindowMonitor ;;
      let fullscreen := match monitor with Some _ => true | None => false end in
      frame' <-
        (if fullscreen then
           glfwSetWindowMonitor None (v0 frame) (v1 frame) (v2 frame) (v3 frame) 0 ;;
           pos <- glfwGetWindowPos ;;
           size <- glfwGetWindowSize ;;
           ret (mk_ivec4 (fst pos) (snd pos) (fst size) (snd size))
         else
           pos <- glfwGetWindowPos ;;
           size <- glfwGetWindowSize ;;
           monitor <- glfwGetPrimaryMonitor ;;
           mode <- glfwGetVideoMode monitor ;;
           glfwSetWindowMonitor (Some monitor) 0 0 (width mode) (height mode) (refreshRate mode) ;;
           ret (mk_ivec4 (fst pos) (snd pos) (fst size) (snd size))) ;;
      glfwSwapInterval 1 ;;
      ret frame'
  | RESIZE =>
      glfwSetWindowSize (v0 (data action)) (v1 (data action)) ;;
      pos <- glfwGetWindowPos ;;
      size <- glfwGetWindowSize ;;
      ret (mk_ivec4 (fst pos) (snd pos) (fst size) (snd size))
  | FIX_SIZE =>
      glfwSetWindowAttrib GLFW_RESIZABLE GLFW_FALSE ;;
      glfwSwapInterval 0 ;;
      ret frame
  | FREE_SIZE =>
      glfwSetWindowAttrib GLFW_RESIZABLE GLFW_TRUE ;;
      glfwSwapInterval 1 ;;
      ret frame
  | QUIT =>
      glfwSetWindowShouldClose GLFW_TRUE ;;
      ret frame
  | NONE => ret frame
  end.

(** *** main (main.cpp:96-256)

    The function is cut at the places where the source changes phase; the
    pieces are put together in [main] below. *)

Definition internalConfigPath : string := "midiviz_internal.settings".

(** Lines 101-152: the steps that can end the process before the session
    starts.  [inl code] is a [return code;] of the source, [inr config] falls
    through to line 154 with the configuration as updated at line 140. *)
Definition startup (argv : list string) : M (Z + Configuration) :=
  ok <- glfwInit ;;
  if negb ok then
    cerr "[ERROR]: could not start GLFW3" ;;
    ret (inl 2)
  else
    config <- Configuration_new internalConfigPath argv ;;
    if showHelp config then
      Configuration_printHelp ;;
      glfwTerminate ;;
      ret (inl 0)
    else if showVersion config then
      Configuration_printVersion ;;
      glfwTerminate ;;
      ret (inl 0)
    else
      glfwWindowHint GLFW_CONTEXT_VERSION_MAJOR 3 ;;
      glfwWindowHint GLFW_CONTEXT_VERSION_MINOR 2 ;;
      glfwWindowHint GLFW_OPENGL_FORWARD_COMPAT GL_TRUE ;;
      glfwWindowHint GLFW_OPENGL_PROFILE GLFW_OPENGL_CORE_PROFILE ;;
      glfwWindowHint GLFW_VISIBLE (if hideWindow config then GLFW_FALSE else GLFW_TRUE) ;;
      glfwWindowHint GLFW_TRANSPARENT_FRAMEBUFFER
                     (if preventTransparency config then GLFW_FALSE else GLFW_TRUE) ;;
      window <- glfwCreateWindow (fst (windowSize config)) (snd (windowSize config))
                                 "MIDI Visualizer" ;;
      if negb window then
        cerr "[ERROR]: could not open window with GLFW3" ;;
        glfwTerminate ;;
        ret (inl 2)
      else
        glfwSetWindowPos (fst (windowPos config)) (snd (windowPos config)) ;;
        transparent <- glfwGetWindowAttrib GLFW_TRANSPARENT_FRAMEBUFFER ;;
        let config := set_preventTransparency (transparent =? GLFW_FALSE)%Z config in
        glfwMakeContextCurrent ;;
        status <- gl3wInit ;;
        if negb (status =? 0)%Z then
          cerr "[ERROR]: Failed to initialize OpenGL" ;;
          ret (inl (-1))
        else
          supported <- gl3wIsSupported 3 2 ;;
          if negb supported then
            cerr "[ERROR]: OpenGL 3.2 not supported\n" ;;
            ret (inl (-1))
          else ret (inr config).

(** Lines 154-205: resources, renderer, overlay UI, initial state, callbacks
    and the first reading of the window geometry.  The value is [frame] as
    read at lines 196-198.  The scale handed to [resizeAndRescale] is the
    float quotient of the two integers given. *)
Definition initialise (config : Configuration) : M ivec4 :=
  ImFontConfig_new ;;
  ResourcesManager_loadResources ;;
  Renderer_new config ;;
  ImGui_CreateContext ;;
  ImGui_configureFont ;;
  ImGui_configureStyle ;;
  ImGui_ImplGlfw_InitForOpenGL false ;;
  ImGui_ImplOpenGL3_Init "#version 330" ;;
  (if negb (empty (lastMidiPath config))
   then Renderer_loadFile (lastMidiPath config) else ret tt) ;;
  State_new ;;
  (if negb (empty (lastConfigPath config))
   then State_load_path (lastConfigPath config) else ret tt) ;;
  State_load_args (args config) ;;
  Renderer_setState ;;
  glfwSetWindowUserPointer ;;
  glfwSetFramebufferSizeCallback ;;
  glfwSetKeyCallback ;;
  glfwSetScrollCallback ;;
  glfwSetCharCallback ;;
  glfwSwapInterval 1 ;;
  pos <- glfwGetWindowPos ;;
  size <- glfwGetWindowSize ;;
  let frame := mk_ivec4 (fst pos) (snd pos) (fst size) (snd size) in
  fb <- glfwGetFramebufferSize ;;
  Renderer_resizeAndRescale (fst fb) (snd fb) (fst fb) (Z.max (v2 frame) 1) ;;
  Renderer_setGUIScale (guiScale config) ;;
  ret frame.

(** Lines 207-219: direct export and initial fullscreen. *)
Definition startup_actions (config : Configuration) (frame : ivec4) : M ivec4 :=
  let directRecord := negb (empty (path (exporting config))) in
  frame <-
    (if directRecord then
       success <- Renderer_startDirectRecording (exporting config) (windowSize config) ;;
       if negb success then performAction (action_of QUIT) frame else ret frame
     else ret frame) ;;
  if fullscreen config then performAction (action_of FULLSCREEN) frame else ret frame.

(** Lines 223-240: the body of the loop.  The time handed to [draw] is
    [DEBUG_SPEED * float(glfwGetTime())]; DEBUG_SPEED is a macro of a header
    that is not among the sources, the call records the clock value read. *)
Definition tick (frame : ivec4) : M ivec4 :=
  ImGui_ImplOpenGL3_NewFrame ;;
  ImGui_ImplGlfw_NewFrame ;;
  ImGui_NewFrame ;;
  time <- glfwGetTime ;;
  action <- Renderer_draw time ;;
  frame <- performAction action frame ;;
  ImGui_Render ;;
  ImGui_ImplOpenGL3_RenderDrawData ;;
  glfwSwapBuffers ;;
  glfwPollEvents ;;
  ret frame.

(** Lines 222-242: [while (!glfwWindowShouldClose(window)) { ... }].  [fuel]
    bounds the number of iterations; the value is [true] when the loop was
    left and [false] when the bound was reached with the window still
    open. *)
Fixpoint main_loop (fuel : nat) (frame : ivec4) : M bool :=
  close <- glfwWindowShouldClose ;;
  if close then ret true
  else
    match fuel with
    | O => ret false
    | S fuel' =>
        frame' <- tick frame ;;
        main_loop fuel' frame'
    end.

(** Lines 244-247. *)
Definition shutdown : M unit :=
  ImGui_ImplOpenGL3_Shutdown ;;
  ImGui_ImplGlfw_Shutdown ;;
  ImGui_DestroyContext ;;
  Renderer_clean.

(** Lines 222-255: the loop and what follows it.  The value is the [int]
    returned, or [None] when [fuel] iterations did not end the loop. *)
Definition loop_and_teardown (fuel : nat) (frame : ivec4) : M (option Z) :=
  exited <- main_loop fuel frame ;;
  if exited then
    shutdown ;;
    glfwDestroyWindow ;;
    glfwTerminate ;;
    ret (Some 0)
  else ret None.

Definition main (argv : list string) (fuel : nat) : M (option Z) :=
  started <- startup argv ;;
  match started with
  | inl code => ret (Some code)
  | inr config =>
      frame <- initialise config ;;
      frame <- startup_actions config frame ;;
      loop_and_teardown fuel frame
  end.

End Shell.

(** ** A simulated environment

    A small executable host, used to run the shell on concrete inputs: one
    window on one monitor, a renderer that plays a script of actions, and a
    queue of input events.  Window sizes are at least 1x1.  When [usable] is
    set, a windowed size is clamped to that area, as a window manager does
    with a window larger than the display. *)
Module Sim.

Record Window := mk_window {
  pos : Z * Z;
  size : positive * positive;
  monitor : option GLFWmonitor;
  resizable : bool;
  interval : Z;
  close : bool
}.

Record Machine := mk_machine {
  glfw_starts : bool;
  parsed : Configuration;
  window_opens : bool;
  loader_status : Z;
  gl32 : bool;
  mode : GLFWvidmode;
  usable : option (positive * positive);
  transparent : bool;
  pixels_per_coordinate : positive;
  recording_works : bool;
  ui_captures_keyboard : bool
}.

Record World := mk_world {
  machine : Machine;
  window : Window;
  script : list SystemAction;
  events : list (list InputEvent);
  swaps : Z
}.

Definition the_monitor : GLFWmonitor := MonitorHandle 0.

Definition clamp (limit : option (positive * positive)) (w h : Z) : positive * positive :=
  match limit with
  | None => (Z.to_pos w, Z.to_pos h)
  | Some (lw, lh) => (Pos.min (Z.to_pos w) lw, Pos.min (Z.to_pos h) lh)
  end.

Definition with_window (f : Window -> Window) (w : World) : World :=
  mk_world (machine w) (f (window w)) (script w) (events w) (swaps w).

Definition step (c : Call) (w : World) : World :=
  match c with
  | CglfwCreateWindow a b _ true =>
      with_window (fun win => mk_window (pos win) (clamp (usable (machine w)) a b) None
                                        (resizable win) (interval win) (close win)) w
  | CglfwSetWindowPos x y =>
      with_window (fun win => mk_window (x, y) (size win) (monitor win)
                                        (resizable win) (interval win) (close win)) w
  | CglfwSetWindowSize a b =>
      with_window (fun win => mk_window (pos win) (clamp (usable (machine w)) a b) (monitor win)
                                        (resizable win) (interval win) (close win)) w
  | CglfwSetWindowMonitor (Some m) _ _ a b _ =>
      with_window (fun win => mk_window (0, 0) (Z.to_pos a, Z.to_pos b) (Some m)
                                        (resizable win) (interval win) (close win)) w
  | CglfwSetWindowMonitor None x y a b _ =>
      with_window (fun win => mk_window (x, y) (clamp (usable (machine w)) a b) None
                                        (resizable win) (interval win) (close win)) w
  | CglfwSetWindowAttrib GLFW_RESIZABLE v =>
      with_window (fun win => mk_window (pos win) (size win) (monitor win)
                                        (negb (v =? 0)%Z) (interval win) (close win)) w
  | CglfwSwapInterval n =>
      with_window (fun win => mk_window (pos win) (size win) (monitor win)
                                        (resizable win) n (close win)) w
  | CglfwSetWindowShouldClose v =>
      with_window (fun win => mk_window (pos win) (size win) (monitor win)
                                        (resizable win) (interval win) (negb (v =? 0)%Z)) w
  | CglfwSwapBuffers =>
      mk_world (machine w) (window w) (script w) (events w) (swaps w + 1)
  | CRenderer_draw _ _ =>
      mk_world (machine w) (window w) (tl (script w)) (events w) (swaps w)
  | CglfwPollEvents _ =>
      mk_world (machine w) (window w) (script w) (tl (events w)) (swaps w)
  | _ => w
  end.

Definition Z_of_bool (b : bool) : Z := if b then GLFW_TRUE else GLFW_FALSE.

Definition size_Z (s : positive * positive) : Z * Z := (Zpos (fst s), Zpos (snd s)).

#[global] Instance host : Host World := {|
  exec := step;
  init_ok w := glfw_starts (machine w);
  config_of _ _ w := parsed (machine w);
  window_created _ _ _ w := window_opens (machine w);
  gl3w_status w := loader_status (machine w);
  gl3w_supported _ _ w := gl32 (machine w);
  window_pos w := pos (window w);
  window_size w := size_Z (size (window w));
  framebuffer_size w :=
    (Zpos (fst (size (window w)) * pixels_per_coordinate (machine w)),
     Zpos (snd (size (window w)) * pixels_per_coordinate (machine w)));
  window_attrib a w :=
    match a with
    | GLFW_RESIZABLE => Z_of_bool (resizable (window w))
    | GLFW_TRANSPARENT_FRAMEBUFFER => Z_of_bool (transparent (machine w))
    | _ => 0
    end;
  window_monitor w := monitor (window w);
  primary_monitor _ := the_monitor;
  video_mode _ w := mode (machine w);
  should_close w := close (window w);
  swap_interval w := interval (window w);
  clock w := swaps w;
  pending_events w := hd [] (events w);
  want_capture_keyboard w := ui_captures_keyboard (machine w);
  recording_started _ _ w := recording_works (machine w);
  draw_action _ w := hd (action_of NONE) (script w)
|}.

(** A desktop with a 1920x1080 monitor at 60 Hz, and the options of a plain
    start: an 800x600 window at (100,100). *)
Definition plain_config : Configuration :=
  mk_config false false false false (800, 600) (100, 100) "" "" 1065353216
            (mk_export "") false [].

Definition desktop (config : Configuration) (area : option (positive * positive)) : Machine :=
  mk_machine true config true 0 true (mk_vidmode 1920 1080 60) area true 1 true false.

(** A world in which the window is open, windowed, at [p] with size [s]. *)
Definition running (m : Machine) (p : Z * Z) (s : positive * positive)
           (actions : list SystemAction) : World :=
  mk_world m (mk_window p s None true 1 false) actions [] 0.

(** The world before [main] starts. *)
Definition boot (m : Machine) (actions : list SystemAction)
           (evs : list (list InputEvent)) : World :=
  mk_world m (mk_window (0, 0) (1%positive, 1%positive) None true 0 false) actions evs 0.

End Sim.

(** ** Vocabulary of the properties *)

Section Vocabulary.

Context {World : Type} `{Host World}.

(** The position and size the adapter reports in a world, as the four
    components of a frame. *)
Definition frame_of (w : World) : ivec4 :=
  mk_ivec4 (fst (window_pos w)) (snd (window_pos w))
           (fst (window_size w)) (snd (window_size w)).

(** Actions applied in succession, with nothing happening in between. *)
Fixpoint perform_all (actions : list SystemAction) (frame : ivec4) : M World ivec4 :=
  match actions with
  | [] => ret frame
  | a :: rest =>
      frame' <- performAction a frame ;;
      perform_all rest frame'
  end.

(** The frames held after each of a series of applications, the i-th action
    being applied in the i-th world: whatever happens to the window between
    two applications (drawing, input, the user dragging the window) is
    covered by the choice of the worlds. *)
Fixpoint frames_after (steps : list (SystemAction * World)) (frame : ivec4) : list ivec4 :=
  match steps with
  | [] => []
  | (a, w) :: rest =>
      let frame' := value (performAction a frame w) in
      frame' :: frames_after rest frame'
  end.

Definition positive_frame (f : ivec4) : Prop := 0 < v2 f /\ 0 < v3 f.

(** *** What is assumed of the adapter, where a property needs it *)

Definition positive_sizes : Prop :=
  forall w, 0 < fst (window_size w) /\ 0 < snd (window_size w).

Definition swap_interval_reported : Prop :=
  forall n w, swap_interval (exec (CglfwSwapInterval n) w) = n.

Definition resizable_reported : Prop :=
  forall v w, v = GLFW_TRUE \/ v = GLFW_FALSE ->
    window_attrib GLFW_RESIZABLE (exec (CglfwSetWindowAttrib GLFW_RESIZABLE v) w) = v.

Definition resizable_kept_by (c : Call) : Prop :=
  forall w, window_attrib GLFW_RESIZABLE (exec c w) = window_attrib GLFW_RESIZABLE w.

(** Asked to leave fullscreen for the geometry [f], the adapter then reports
    exactly [f]. *)
Definition restores_faithfully (w : World) (f : ivec4) : Prop :=
  frame_of (exec (CglfwSetWindowMonitor None (v0 f) (v1 f) (v2 f) (v3 f) 0) w) = f.

Definition is_close_request (c : Call) : bool :=
  match c with CglfwSetWindowShouldClose _ => true | _ => false end.

Definition close_reported : Prop :=
  forall w, should_close (exec (CglfwSetWindowShouldClose GLFW_TRUE) w) = true.

(** Only [glfwSetWindowShouldClose] can clear the close flag. *)
Definition close_sticky : Prop :=
  forall c w, is_close_request c = false ->
    should_close w = true -> should_close (exec c w) = true.

End Vocabulary.

(** *** Reading a transcript *)

Definition is_draw (c : Call) : bool :=
  match c with CRenderer_draw _ _ => true | _ => false end.

Definition is_swap (c : Call) : bool :=
  match c with CglfwSwapBuffers => true | _ => false end.

Definition is_poll (c : Call) : bool :=
  match c with CglfwPollEvents _ => true | _ => false end.

Definition is_loop_condition (c : Call) : bool :=
  match c with CglfwWindowShouldClose _ => true | _ => false end.

Definition count (p : Call -> bool) (t : list Call) : nat := List.length (filter p t).

(** The transcript after the first call that satisfies [p]. *)
Fixpoint after_first (p : Call -> bool) (t : list Call) : list Call :=
  match t with
  | [] => []
  | c :: rest => if p c then rest else after_first p rest
  end.

(** The transcript before the first call that satisfies [p]. *)
Fixpoint before_first (p : Call -> bool) (t : list Call) : list Call :=
  match t with
  | [] => []
  | c :: rest => if p c then [] else c :: before_first p rest
  end.

(** *** The calls each part of [main] can make *)

Definition startup_call (c : Call) : bool :=
  match c with
  | CglfwInit _ | Ccerr _ | CConfiguration _ _ _
  | CConfiguration_printHelp | CConfiguration_printVersion | CglfwTerminate
  | CglfwWindowHint _ _ | CglfwCreateWindow _ _ _ _ | CglfwSetWindowPos _ _
  | CglfwGetWindowAttrib _ _ | CglfwMakeContextCurrent
  | Cgl3wInit _ | Cgl3wIsSupported _ _ _ => true
  | _ => false
  end.

Definition initialise_call (c : Call) : bool :=
  match c with
  | CImFontConfig | CResourcesManager_loadResources | CRenderer _
  | CImGui_CreateContext | CImGui_configureFont | CImGui_configureStyle
  | CImGui_ImplGlfw_InitForOpenGL _ | CImGui_ImplOpenGL3_Init _
  | CRenderer_loadFile _ | CState | CState_load_path _ | CState_load_args _
  | CRenderer_setState | CglfwSetWindowUserPointer
  | CglfwSetFramebufferSizeCallback | CglfwSetKeyCallback
  | CglfwSetScrollCallback | CglfwSetCharCallback | CglfwSwapInterval _
  | CglfwGetWindowPos _ | CglfwGetWindowSize _ | CglfwGetFramebufferSize _
  | CRenderer_resizeAndRescale _ _ _ _ | CRenderer_setGUIScale _ => true
  | _ => false
  end.

Definition action_call (c : Call) : bool :=
  match c with
  | CglfwGetWindowMonitor _ | CglfwSetWindowMonitor _ _ _ _ _ _
  | CglfwGetWindowPos _ | CglfwGetWindowSize _
  | CglfwGetPrimaryMonitor _ | CglfwGetVideoMode _ _ | CglfwSwapInterval _
  | CglfwSetWindowSize _ _ | CglfwSetWindowAttrib _ _
  | CglfwSetWindowShouldClose _ => true
  | _ => false
  end.

Definition is_record (c : Call) : bool :=
  match c with CRenderer_startDirectRecording _ _ _ => true | _ => false end.

Definition session_call (c : Call) : bool := action_call c || is_record c.

Definition callback_call (c : Call) : bool :=
  match c with
  | CglfwGetWindowUserPointer | CRenderer_resize _ _ | CRenderer_keyPressed _ _
  | CImGui_WantCaptureKeyboard _ | CImGui_ImplGlfw_KeyCallback _ _ _ _
  | CImGui_ImplGlfw_ScrollCallback _ _ | CImGui_ImplGlfw_CharCallback _ => true
  | _ => false
  end.

Definition loop_call (c : Call) : bool :=
  action_call c || callback_call c ||
  match c with
  | CglfwWindowShouldClose _ | CImGui_ImplOpenGL3_NewFrame | CImGui_ImplGlfw_NewFrame
  | CImGui_NewFrame | CglfwGetTime _ | CRenderer_draw _ _ | CImGui_Render
  | CImGui_ImplOpenGL3_RenderDrawData | CglfwSwapBuffers | CglfwPollEvents _ => true
  | _ => false
  end.

(** The calls with which [main] ends once the loop is left (lines 244-254). *)
Definition teardown : list Call :=
  [CImGui_ImplOpenGL3_Shutdown; CImGui_ImplGlfw_Shutdown; CImGui_DestroyContext;
   CRenderer_clean; CglfwDestroyWindow; CglfwTerminate].

Definition teardown_call (c : Call) : bool :=
  match c with
  | CImGui_ImplOpenGL3_Shutdown | CImGui_ImplGlfw_Shutdown | CImGui_DestroyContext
  | CRenderer_clean | CglfwDestroyWindow | CglfwTerminate => true
  | _ => false
  end.

(** The calls [main] can make from the loop on, and from line 154 on. *)
Definition closing_call (c : Call) : bool := loop_call c || teardown_call c.

Definition late_call (c : Call) : bool :=
  initialise_call c || session_call c || closing_call c.

(** The calls whose outcome ends [main] before the session starts, with the
    code [main] then returns: a failed initialisation of GLFW, a window that
    could not be created, a failed OpenGL loader, an unsupported OpenGL
    version, and the help and version texts. *)
Definition early_exit_code (c : Call) : option Z :=
  match c with
  | CglfwInit false => Some 2
  | CglfwCreateWindow _ _ _ false => Some 2
  | Cgl3wInit status => if (status =? 0)%Z then None else Some (-1)
  | Cgl3wIsSupported _ _ false => Some (-1)
  | CConfiguration_printHelp | CConfiguration_printVersion => Some 0
  | _ => None
  end.

(** *** What the callbacks hand on *)

Definition is_ui_input (c : Call) : bool :=
  match c with
  | CImGui_ImplGlfw_KeyCallback _ _ _ _ | CImGui_ImplGlfw_ScrollCallback _ _
  | CImGui_ImplGlfw_CharCallback _ => true
  | _ => false
  end.

Definition is_renderer_input (c : Call) : bool :=
  match c with
  | CRenderer_resize _ _ | CRenderer_keyPressed _ _ | CRenderer_rescale _ => true
  | _ => false
  end.

(** The calls the overlay UI is owed for a list of events. *)
Definition ui_inputs (evs : list InputEvent) : list Call :=
  flat_map (fun e =>
              match e with
              | KeyEvent key scancode action mods =>
                  [CImGui_ImplGlfw_KeyCallback key scancode action mods]
              | ScrollEvent x y => [CImGui_ImplGlfw_ScrollCallback x y]
              | CharEvent c => [CImGui_ImplGlfw_CharCallback c]
              | FramebufferSizeEvent _ _ => []
              end) evs.

(** The calls the renderer is owed for a list of events, when the overlay UI
    does ([capture]) or does not want the keyboard. *)
Definition renderer_inputs (capture : bool) (evs : list InputEvent) : list Call :=
  flat_map (fun e =>
              match e with
              | FramebufferSizeEvent w h => [CRenderer_resize w h]
              | KeyEvent key _ action _ =>
                  if capture then [] else [CRenderer_keyPressed key action]
              | ScrollEvent _ _ | CharEvent _ => []
              end) evs.

(** *** More readings of a transcript *)

Definition is_terminate (c : Call) : bool :=
  match c with CglfwTerminate => true | _ => false end.

Definition is_destroy (c : Call) : bool :=
  match c with CglfwDestroyWindow => true | _ => false end.

Definition is_clean (c : Call) : bool :=
  match c with CRenderer_clean => true | _ => false end.



Definition is_rescaling (c : Call) : bool :=
  match c with CRenderer_resizeAndRescale _ _ _ _ => true | _ => false end.

(** The check of line 149 came out well. *)
Definition is_gl_ready (c : Call) : bool :=
  match c with Cgl3wIsSupported _ _ ok => ok | _ => false end.

(** The calls a tick makes itself, outside [performAction] and the
    callbacks, and the test of the loop condition. *)
Definition tick_call (c : Call) : bool :=
  match c with
  | CglfwWindowShouldClose _ | CImGui_ImplOpenGL3_NewFrame | CImGui_ImplGlfw_NewFrame
  | CImGui_NewFrame | CglfwGetTime _ | CRenderer_draw _ _ | CImGui_Render
  | CImGui_ImplOpenGL3_RenderDrawData | CglfwSwapBuffers | CglfwPollEvents _ => true
  | _ => false
  end.

(** A call that does not withdraw a close request. *)
Definition keeps_close_request (c : Call) : bool :=
  match c with
  | CglfwSetWindowShouldClose v => (v =? GLFW_TRUE)%Z
  | _ => true
  end.

(** A call that neither sets a swap interval other than 1 nor touches a
    window attribute. *)
Definition keeps_vsync (c : Call) : bool :=
  match c with
  | CglfwSwapInterval n => (n =? 1)%Z
  | CglfwSetWindowAttrib _ _ => false
  | _ => true
  end.

(** How often [glfwTerminate] is called on the early return that follows the
    call [c]: not at all when GLFW did not start and when OpenGL could not be
    loaded or is too old, once otherwise. *)
Definition terminations_after (c : Call) : nat :=
  match c with
  | CglfwInit _ | Cgl3wInit _ | Cgl3wIsSupported _ _ _ => 0
  | _ => 1
  end.

Section MoreVocabulary.

Context {World : Type} `{Host World}.

(** The callbacks do not change whether the overlay UI wants the keyboard. *)
Definition capture_steady : Prop :=
  forall c w, callback_call c = true ->
    want_capture_keyboard (exec c w) = want_capture_keyboard w.

Definition monitor_reported : Prop :=
  forall m x y a b r w, window_monitor (exec (CglfwSetWindowMonitor m x y a b r) w) = m.

Definition monitor_kept_by_swap_interval : Prop :=
  forall n w, window_monitor (exec (CglfwSwapInterval n) w) = window_monitor w.

End MoreVocabulary.

(** A window with input waiting: a key, a resize of the framebuffer, a
    scroll and a character; the overlay UI does or does not want the
    keyboard. *)
Definition some_events : list InputEvent :=
  [KeyEvent 65 30 1 0; FramebufferSizeEvent 1024 768; ScrollEvent 0 1; CharEvent 97].

Definition window_with_ui (capture : bool) : Sim.World :=
  Sim.mk_world
    (Sim.mk_machine true Sim.plain_config true 0 true (mk_vidmode 1920 1080 60)
                    None true 1 true capture)
    (Sim.mk_window (100, 100) (800, 600)%positive None true 1 false) [] [] 0.

(** The world before a plain run of [main]: two frames, then QUIT. *)
Definition plain_boot : Sim.World :=
  Sim.boot (Sim.desktop Sim.plain_config None) [action_of NONE; action_of QUIT] [].

(** The world before a run of [main] on a machine whose OpenGL loader
    fails. *)
Definition no_opengl : Sim.World :=
  Sim.boot (Sim.mk_machine true Sim.plain_config true 1 true (mk_vidmode 1920 1080 60)
                           None true 1 true false) [] [].

(** A window during whose next tick the renderer asks for nothing and the
    events of [some_events] arrive. *)
Definition window_with_input : Sim.World :=
  Sim.mk_world (Sim.desktop Sim.plain_config None)
               (Sim.mk_window (100, 100) (800, 600)%positive None true 1 false)
               [action_of NONE] [some_events] 0.

(** *** What the adapter answers during startup

    The worlds in which [main] puts its questions at lines 101-152, the
    answers it gets there, and the run from line 154 to the loop.  Each world
    is the one before it after the calls [main] makes in between. *)

Section StartupAnswers.

Context {World : Type} `{Host World}.

(** The world after [glfwInit] returned (line 101). *)
Definition world_after_init (w : World) : World := exec (CglfwInit (init_ok w)) w.

(** The options the Configuration constructor gives (line 107). *)
Definition options (argv : list string) (w : World) : Configuration :=
  config_of internalConfigPath argv (world_after_init w).

(** The world in which [glfwCreateWindow] is called (line 131): after the
    constructor and the six window hints. *)
Definition world_before_window (argv : list string) (w : World) : World :=
  let config := options argv w in
  exec (CglfwWindowHint GLFW_TRANSPARENT_FRAMEBUFFER
          (if preventTransparency config then GLFW_FALSE else GLFW_TRUE))
    (exec (CglfwWindowHint GLFW_VISIBLE (if hideWindow config then GLFW_FALSE else GLFW_TRUE))
       (exec (CglfwWindowHint GLFW_OPENGL_PROFILE GLFW_OPENGL_CORE_PROFILE)
          (exec (CglfwWindowHint GLFW_OPENGL_FORWARD_COMPAT GL_TRUE)
             (exec (CglfwWindowHint GLFW_CONTEXT_VERSION_MINOR 2)
                (exec (CglfwWindowHint GLFW_CONTEXT_VERSION_MAJOR 3)
                   (exec (CConfiguration internalConfigPath argv config)
                         (world_after_init w))))))).

(** Whether [glfwCreateWindow] gives a window there. *)
Definition window_opens (argv : list string) (w : World) : bool :=
  let config := options argv w in
  window_created (fst (windowSize config)) (snd (windowSize config)) "MIDI Visualizer"
                 (world_before_window argv w).

(** The world once the window is positioned (line 138), in which its
    transparency is read (line 140). *)
Definition world_positioned (argv : list string) (w : World) : World :=
  let config := options argv w in
  exec (CglfwSetWindowPos (fst (windowPos config)) (snd (windowPos config)))
    (exec (CglfwCreateWindow (fst (windowSize config)) (snd (windowSize config))
                             "MIDI Visualizer" (window_opens argv w))
          (world_before_window argv w)).

(** What [gl3wInit] returns (line 145), the context being current. *)
Definition loader_status (argv : list string) (w : World) : Z :=
  gl3w_status (exec CglfwMakeContextCurrent (world_positioned argv w)).

(** The world after [gl3wInit] returned. *)
Definition world_after_loader (argv : list string) (w : World) : World :=
  exec (Cgl3wInit (loader_status argv w))
       (exec CglfwMakeContextCurrent (world_positioned argv w)).

(** What [gl3wIsSupported(3, 2)] returns there (line 149). *)
Definition opengl_supported (argv : list string) (w : World) : bool :=
  gl3w_supported 3 2 (world_after_loader argv w).

(** None of the checks of lines 101-152 ends the run. *)
Definition started (argv : list string) (w : World) : Prop :=
  init_ok w = true /\
  showHelp (options argv w) = false /\ showVersion (options argv w) = false /\
  window_opens argv w = true /\
  loader_status argv w = 0 /\
  opengl_supported argv w = true.

(** The options as the renderer gets them (line 140). *)
Definition renderer_options (argv : list string) (w : World) : Configuration :=
  set_preventTransparency
    (window_attrib GLFW_TRANSPARENT_FRAMEBUFFER (world_positioned argv w) =? GLFW_FALSE)%Z
    (options argv w).

(** The run from line 154 to line 219: its value is the frame and its world
    the world in which the loop starts. *)
Definition loop_entry (argv : list string) (w : World) : Result World ivec4 :=
  (frame <- initialise (renderer_options argv w) ;;
   startup_actions (renderer_options argv w) frame) (world_after_loader argv w).

End StartupAnswers.

(** ** Concrete worlds

    The inputs on which the properties are run at the end of the file. *)

Definition frame_800x600 : ivec4 := mk_ivec4 100 100 800 600.

(** The window of the scenario of the spec: 800x600 at (100,100). *)
Definition windowed_800x600 (area : option (positive * positive))
           (actions : list SystemAction) : Sim.World :=
  Sim.running (Sim.desktop Sim.plain_config area) (100, 100) (800, 600)%positive actions.

(** The same window after the user dragged it to (200,200). *)
Definition dragged_800x600 : Sim.World :=
  Sim.running (Sim.desktop Sim.plain_config None) (200, 200) (800, 600)%positive [].

(** A window that is fullscreen on the monitor, on a desktop whose usable
    area is 1280x800. *)
Definition fullscreen_window : Sim.World :=
  Sim.mk_world (Sim.desktop Sim.plain_config (Some (1280, 800)%positive))
               (Sim.mk_window (0, 0) (1920, 1080)%positive (Some Sim.the_monitor) true 1 false)
               [] [] 0.

(** A window whose size was locked before. *)
Definition locked_window : Sim.World :=
  Sim.mk_world (Sim.desktop Sim.plain_config None)
               (Sim.mk_window (100, 100) (800, 600)%positive None false 0 false)
               [] [] 0.

(** The worlds [main] is started in: GLFW cannot start; direct export to a
    file that cannot be written. *)
Definition no_glfw : Sim.World :=
  Sim.boot (Sim.mk_machine false Sim.plain_config true 0 true (mk_vidmode 1920 1080 60)
                           None true 1 true false) [] [].

Definition export_config : Configuration :=
  mk_config false false false false (800, 600) (100, 100) "" "" 1065353216
            (mk_export "out.mp4") true [].

Definition failing_export : Sim.World :=
  Sim.boot (Sim.mk_machine true export_config true 0 true (mk_vidmode 1920 1080 60)
                           None true 1 false false) [action_of NONE] [].


(** ** Tactics *)

Ltac step_startup :=
  unfold startup;
  cbv [bind glfwInit Configuration_new glfwCreateWindow glfwGetWindowAttrib gl3wInit
       gl3wIsSupported ask get call value world trace].

Unset Implicit Arguments.

(** ** performAction *)

Section PerformAction.

Context {World : Type} `{Host World}.

Lemma perform_fullscreen_windowed (a : SystemAction) (frame : ivec4) (w : World) :
  type a = FULLSCREEN -> window_monitor w = None ->
  let mode := video_mode (primary_monitor w) w in
  let bound := exec (CglfwSetWindowMonitor (Some (primary_monitor w)) 0 0
                       (width mode) (height mode) (refreshRate mode)) w in
  performAction a frame w =
  mkResult (frame_of w) (exec (CglfwSwapInterval 1) bound)
    [CglfwGetWindowMonitor None; CglfwGetWindowPos (window_pos w);
     CglfwGetWindowSize (window_size w); CglfwGetPrimaryMonitor (primary_monitor w);
     CglfwGetVideoMode (primary_monitor w) mode;
     CglfwSetWindowMonitor (Some (primary_monitor w)) 0 0
       (width mode) (height mode) (refreshRate mode);
     CglfwSwapInterval 1].
Proof.
  intros Ha Hm. unfold performAction. rewrite Ha.
  cbv [bind glfwGetWindowMonitor get value world trace]. rewrite Hm. reflexivity.
Qed.

Lemma perform_fullscreen_fullscreen (a : SystemAction) (frame : ivec4) (w : World) m :
  type a = FULLSCREEN -> window_monitor w = Some m ->
  let restored :=
    exec (CglfwSetWindowMonitor None (v0 frame) (v1 frame) (v2 frame) (v3 frame) 0) w in
  performAction a frame w =
  mkResult (frame_of restored) (exec (CglfwSwapInterval 1) restored)
    [CglfwGetWindowMonitor (Some m);
     CglfwSetWindowMonitor None (v0 frame) (v1 frame) (v2 frame) (v3 frame) 0;
     CglfwGetWindowPos (window_pos restored); CglfwGetWindowSize (window_size restored);
     CglfwSwapInterval 1].
Proof.
  intros Ha Hm. unfold performAction. rewrite Ha.
  cbv [bind glfwGetWindowMonitor get value world trace]. rewrite Hm. reflexivity.
Qed.

Lemma perform_resize (a : SystemAction) (frame : ivec4) (w : World) :
  type a = RESIZE ->
  let resized := exec (CglfwSetWindowSize (v0 (data a)) (v1 (data a))) w in
  performAction a frame w =
  mkResult (frame_of resized) resized
    [CglfwSetWindowSize (v0 (data a)) (v1 (data a));
     CglfwGetWindowPos (window_pos resized); CglfwGetWindowSize (window_size resized)].
Proof. intros Ha. unfold performAction. rewrite Ha. reflexivity. Qed.

Lemma perform_fix_size (a : SystemAction) (frame : ivec4) (w : World) :
  type a = FIX_SIZE ->
  performAction a frame w =
  mkResult frame
    (exec (CglfwSwapInterval 0) (exec (CglfwSetWindowAttrib GLFW_RESIZABLE GLFW_FALSE) w))
    [CglfwSetWindowAttrib GLFW_RESIZABLE GLFW_FALSE; CglfwSwapInterval 0].
Proof. intros Ha. unfold performAction. rewrite Ha. reflexivity. Qed.

Lemma perform_free_size (a : SystemAction) (frame : ivec4) (w : World) :
  type a = FREE_SIZE ->
  performAction a frame w =
  mkResult frame
    (exec (CglfwSwapInterval 1) (exec (CglfwSetWindowAttrib GLFW_RESIZABLE GLFW_TRUE) w))
    [CglfwSetWindowAttrib GLFW_RESIZABLE GLFW_TRUE; CglfwSwapInterval 1].
Proof. intros Ha. unfold performAction. rewrite Ha. reflexivity. Qed.

Lemma perform_quit (a : SystemAction) (frame : ivec4) (w : World) :
  type a = QUIT ->
  performAction a frame w =
  mkResult frame (exec (CglfwSetWindowShouldClose GLFW_TRUE) w)
    [CglfwSetWindowShouldClose GLFW_TRUE].
Proof. intros Ha. unfold performAction. rewrite Ha. reflexivity. Qed.

Lemma perform_none (a : SystemAction) (frame : ivec4) (w : World) :
  type a = NONE -> performAction a frame w = mkResult frame w [].
Proof. intros Ha. unfold performAction. rewrite Ha. reflexivity. Qed.

End PerformAction.

Section Actions.

Context {World : Type} `{Host World}.

(** C4. For every RESIZE action, carrying the requested width and height in
    [data[0]] and [data[1]], [performAction] asks the adapter for that size
    and then overwrites the four components of the frame with the position
    and the size the adapter reports after the request, whatever the frame
    held before; so when the adapter reports a size other than the one
    requested (a clamped one), the frame holds the reported size and not the
    requested one. *)
Theorem resize_rereads_frame (d frame : ivec4) (world0 : World) :
  let resized := exec (CglfwSetWindowSize (v0 d) (v1 d)) world0 in
  let r := performAction (mk_action RESIZE d) frame world0 in
  trace r = [CglfwSetWindowSize (v0 d) (v1 d);
             CglfwGetWindowPos (window_pos resized);
             CglfwGetWindowSize (window_size resized)] /\
  world r = resized /\
  (v0 (value r), v1 (value r)) = window_pos resized /\
  (v2 (value r), v3 (value r)) = window_size resized /\
  (window_size resized <> (v0 d, v1 d) -> (v2 (value r), v3 (value r)) <> (v0 d, v1 d)).
Proof.
  intros resized r. subst r.
  rewrite perform_resize by reflexivity. cbn [value world trace data].
  fold resized. unfold frame_of. cbn [v0 v1 v2 v3].
  rewrite <- !surjective_pairing. repeat split; auto.
Qed.

(** C6, as the code has it.  The frame is written at three places: by the
    backup read just before the window is bound to the monitor (toggle while
    windowed), by the read that follows the restore request (toggle while
    fullscreen), and by the read that follows a resize request, which is made
    whether or not the window is fullscreen.  FIX_SIZE, FREE_SIZE, QUIT and
    NONE leave the frame as it was. *)
Theorem frame_written_at_three_places (a : SystemAction) (frame : ivec4) (w : World) :
  let r := performAction a frame w in
  match type a with
  | FULLSCREEN =>
      match window_monitor w with
      | None =>
          value r = frame_of w /\
          exists mode,
            trace r = [CglfwGetWindowMonitor None; CglfwGetWindowPos (window_pos w);
                       CglfwGetWindowSize (window_size w);
                       CglfwGetPrimaryMonitor (primary_monitor w);
                       CglfwGetVideoMode (primary_monitor w) mode;
                       CglfwSetWindowMonitor (Some (primary_monitor w)) 0 0
                         (width mode) (height mode) (refreshRate mode);
                       CglfwSwapInterval 1]
      | Some m =>
          let restore :=
            CglfwSetWindowMonitor None (v0 frame) (v1 frame) (v2 frame) (v3 frame) 0 in
          value r = frame_of (exec restore w) /\
          trace r = [CglfwGetWindowMonitor (Some m); restore;
                     CglfwGetWindowPos (window_pos (exec restore w));
                     CglfwGetWindowSize (window_size (exec restore w));
                     CglfwSwapInterval 1]
      end
  | RESIZE =>
      let request := CglfwSetWindowSize (v0 (data a)) (v1 (data a)) in
      value r = frame_of (exec request w) /\
      trace r = [request; CglfwGetWindowPos (window_pos (exec request w));
                 CglfwGetWindowSize (window_size (exec request w))]
  | FIX_SIZE | FREE_SIZE | QUIT | NONE => value r = frame
  end.
Proof.
  intros r. subst r. destruct (type a) eqn:Ha.
  - now rewrite perform_none.
  - now rewrite perform_fix_size.
  - now rewrite perform_free_size.
  - destruct (window_monitor w) as [m|] eqn:Hm.
    + rewrite (perform_fullscreen_fullscreen _ _ _ _ Ha Hm). cbn. auto.
    + rewrite (perform_fullscreen_windowed _ _ _ Ha Hm). cbn. eauto.
  - now rewrite perform_quit.
  - rewrite perform_resize by assumption. cbn. auto.
Qed.

(** C5, as the code has it.  LOCK_SIZE followed at once by UNLOCK_SIZE leaves
    the swap interval at 1 and the window resizable, whatever the attribute
    was before: the attribute is back at its earlier value exactly when the
    window was resizable before the lock.  The adapter is assumed to report
    the attribute and the interval it was last given and not to touch the
    attribute when the interval is set. *)
Theorem lock_then_unlock (frame : ivec4) (w : World) :
  swap_interval_reported ->
  resizable_reported ->
  (forall n, resizable_kept_by (CglfwSwapInterval n)) ->
  let r := perform_all [action_of FIX_SIZE; action_of FREE_SIZE] frame w in
  swap_interval (world r) = 1 /\
  window_attrib GLFW_RESIZABLE (world r) = GLFW_TRUE /\
  (window_attrib GLFW_RESIZABLE (world r) = window_attrib GLFW_RESIZABLE w <->
   window_attrib GLFW_RESIZABLE w = GLFW_TRUE) /\
  value r = frame.
Proof.
  intros Hswap Hres Hkeep r.
  assert (Hr : world r =
               exec (CglfwSwapInterval 1)
                 (exec (CglfwSetWindowAttrib GLFW_RESIZABLE GLFW_TRUE)
                    (exec (CglfwSwapInterval 0)
                       (exec (CglfwSetWindowAttrib GLFW_RESIZABLE GLFW_FALSE) w))))
    by reflexivity.
  assert (Hattr : window_attrib GLFW_RESIZABLE (world r) = GLFW_TRUE).
  { rewrite Hr, Hkeep. apply Hres. now left. }
  repeat split.
  - rewrite Hr. apply Hswap.
  - exact Hattr.
  - intros E. now rewrite <- E.
  - intros E. now rewrite E.
Qed.

(** C10. LOCK_SIZE followed by FULLSCREEN_TOGGLE leaves the swap interval at
    1, in either direction of the toggle: the interval 0 set by the lock is
    overridden, and the window is still not resizable.  The adapter is
    assumed to report the attribute and the interval it was last given and
    not to touch the attribute when the interval or the monitor is set. *)
Theorem lock_then_fullscreen (frame : ivec4) (w : World) :
  swap_interval_reported ->
  resizable_reported ->
  (forall n, resizable_kept_by (CglfwSwapInterval n)) ->
  (forall m x y a b r, resizable_kept_by (CglfwSetWindowMonitor m x y a b r)) ->
  let locked := performAction (action_of FIX_SIZE) frame w in
  let r := perform_all [action_of FIX_SIZE; action_of FULLSCREEN] frame w in
  swap_interval (world locked) = 0 /\
  swap_interval (world r) = 1 /\
  window_attrib GLFW_RESIZABLE (world r) = GLFW_FALSE.
Proof.
  intros Hswap Hres Hkeep Hmon locked r.
  assert (Hl : world locked =
               exec (CglfwSwapInterval 0)
                 (exec (CglfwSetWindowAttrib GLFW_RESIZABLE GLFW_FALSE) w)) by reflexivity.
  assert (Hlocked : window_attrib GLFW_RESIZABLE (world locked) = GLFW_FALSE).
  { rewrite Hl, Hkeep. apply Hres. now right. }
  assert (Hr : world r = world (performAction (action_of FULLSCREEN) frame (world locked)))
    by reflexivity.
  split; [rewrite Hl; apply Hswap|].
  rewrite Hr. clear Hr.
  destruct (window_monitor (world locked)) as [m|] eqn:Hm.
  - rewrite (perform_fullscreen_fullscreen (action_of FULLSCREEN) _ _ _ eq_refl Hm). cbn [world].
    split; [apply Hswap|]. now rewrite Hkeep, Hmon.
  - rewrite (perform_fullscreen_windowed (action_of FULLSCREEN) _ _ eq_refl Hm). cbn [world].
    split; [apply Hswap|]. now rewrite Hkeep, Hmon.
Qed.

(** C1, as the code has it.  Two FULLSCREEN_TOGGLEs in succession, from a
    windowed state, leave in the frame the geometry the adapter reported when
    the first toggle was applied; that is the value the frame had before the
    first toggle when the frame was up to date with the adapter then.  The
    adapter is assumed to report the window as bound to a monitor after the
    first toggle and to report, after the restore, the geometry it was asked
    to set. *)
Theorem fullscreen_twice (frame : ivec4) (w : World) :
  window_monitor w = None ->
  let first := performAction (action_of FULLSCREEN) frame w in
  window_monitor (world first) <> None ->
  restores_faithfully (world first) (value first) ->
  let r := perform_all [action_of FULLSCREEN; action_of FULLSCREEN] frame w in
  value first = frame_of w /\
  value r = frame_of w /\
  (frame = frame_of w -> value r = frame).
Proof.
  intros Hw first Hbound Hrestore r.
  assert (Hfirst : value first = frame_of w).
  { unfold first. now rewrite (perform_fullscreen_windowed (action_of FULLSCREEN) _ _ eq_refl Hw). }
  assert (Hr : value r = value (performAction (action_of FULLSCREEN) (value first) (world first)))
    by reflexivity.
  assert (Hv : value r = frame_of w).
  { rewrite Hr. destruct (window_monitor (world first)) as [m|] eqn:Hm; [|congruence].
    rewrite (perform_fullscreen_fullscreen (action_of FULLSCREEN) _ _ _ eq_refl Hm). cbn [value].
    unfold restores_faithfully in Hrestore. now rewrite Hrestore. }
  repeat split; auto. intros ->. exact Hv.
Qed.

Lemma performAction_positive (a : SystemAction) (frame : ivec4) (w : World) :
  positive_sizes -> positive_frame frame -> positive_frame (value (performAction a frame w)).
Proof.
  intros Hpos Hf. destruct (type a) eqn:Ha.
  - now rewrite perform_none.
  - now rewrite perform_fix_size.
  - now rewrite perform_free_size.
  - destruct (window_monitor w) as [m|] eqn:Hm.
    + rewrite (perform_fullscreen_fullscreen _ _ _ _ Ha Hm). apply Hpos.
    + rewrite (perform_fullscreen_windowed _ _ _ Ha Hm). apply Hpos.
  - now rewrite perform_quit.
  - rewrite perform_resize by assumption. apply Hpos.
Qed.

Lemma initialise_reads_frame (config : Configuration) (w : World) :
  exists w', value (initialise config w) = frame_of w'.
Proof.
  unfold initialise.
  destruct (empty (lastMidiPath config)), (empty (lastConfigPath config));
    eexists; reflexivity.
Qed.

(** C2. The frame is read from the adapter at startup (main.cpp:196-198) and
    then goes through any series of applications, each in whatever world the
    window is in by then: if the adapter only ever reports positive window
    sizes, the width and the height of the frame are positive at the start,
    as [main] reads it and as any world gives it, and after every
    application. *)
Theorem frame_stays_positive (w0 : World) (steps : list (SystemAction * World))
        (config : Configuration) :
  positive_sizes ->
  positive_frame (value (initialise config w0)) /\
  Forall positive_frame (frame_of w0 :: frames_after steps (frame_of w0)).
Proof.
  intros Hpos. split.
  { destruct (initialise_reads_frame config w0) as [w' ->]. apply Hpos. }
  assert (H0 : positive_frame (frame_of w0)) by apply Hpos.
  constructor; [exact H0|].
  revert H0. generalize (frame_of w0) as frame.
  induction steps as [|[a w] rest IH]; intros frame Hf; cbn [frames_after].
  - constructor.
  - assert (Hn := performAction_positive a frame w Hpos Hf).
    constructor; [exact Hn|]. now apply IH.
Qed.

End Actions.

(** ** The loop *)

Lemma count_app (p : Call -> bool) (a b : list Call) :
  count p (a ++ b) = (count p a + count p b)%nat.
Proof. unfold count. now rewrite filter_app, length_app. Qed.

Lemma count_cons (p : Call -> bool) (c : Call) (t : list Call) :
  count p (c :: t) = ((if p c then 1 else 0) + count p t)%nat.
Proof. unfold count. cbn. now destruct (p c). Qed.

Lemma count_none (p q : Call -> bool) (t : list Call) :
  (forall c, q c = true -> p c = false) ->
  forallb q t = true -> count p t = 0%nat.
Proof.
  intros Hpq. induction t as [|c t IH]; cbn; [reflexivity|].
  intros Ht. apply andb_true_iff in Ht as [Hc Ht].
  unfold count in *. cbn. rewrite (Hpq c Hc). now apply IH.
Qed.

Lemma forallb_weaken (p q : Call -> bool) (t : list Call) :
  (forall c, p c = true -> q c = true) ->
  forallb p t = true -> forallb q t = true.
Proof.
  intros Hpq. rewrite !forallb_forall. auto.
Qed.

Lemma not_in_of_forallb (q : Call -> bool) (t : list Call) (c : Call) :
  forallb q t = true -> q c = false -> ~ In c t.
Proof.
  intros Ht Hc Hin. rewrite forallb_forall in Ht. apply Ht in Hin. congruence.
Qed.

Lemma before_first_app (p : Call -> bool) (a b : list Call) :
  count p a = 0%nat -> before_first p (a ++ b) = a ++ before_first p b.
Proof.
  induction a as [|c a IH]; cbn; [reflexivity|].
  unfold count in *. cbn. destruct (p c); cbn; [discriminate|].
  intros Ha. now rewrite IH.
Qed.

Lemma after_first_app (p : Call -> bool) (a b : list Call) :
  count p a = 0%nat -> after_first p (a ++ b) = after_first p b.
Proof.
  induction a as [|c a IH]; cbn; [reflexivity|].
  unfold count in *. cbn. destruct (p c); cbn; [discriminate|].
  intros Ha. now rewrite IH.
Qed.

(** [H] says that a call is in a transcript that [lem] shows to be made of
    other calls. *)
Ltac not_among H lem :=
  exfalso; revert H; eapply not_in_of_forallb; [apply lem|reflexivity].



Section Loop.

Context {World : Type} `{Host World}.

Lemma performAction_calls (a : SystemAction) (frame : ivec4) (w : World) :
  forallb action_call (trace (performAction a frame w)) = true.
Proof.
  destruct (type a) eqn:Ha.
  - now rewrite perform_none.
  - now rewrite perform_fix_size.
  - now rewrite perform_free_size.
  - destruct (window_monitor w) as [m|] eqn:Hm.
    + now rewrite (perform_fullscreen_fullscreen _ _ _ _ Ha Hm).
    + now rewrite (perform_fullscreen_windowed _ _ _ Ha Hm).
  - now rewrite perform_quit.
  - now rewrite perform_resize.
Qed.

Lemma deliver_calls (e : InputEvent) (w : World) :
  forallb callback_call (trace (deliver e w)) = true.
Proof.
  destruct e; cbn; try reflexivity.
  destruct (want_capture_keyboard w); reflexivity.
Qed.

Lemma deliver_all_calls (evs : list InputEvent) (w : World) :
  forallb callback_call (trace (deliver_all evs w)) = true.
Proof.
  revert w. induction evs as [|e evs IH]; intros w; [reflexivity|].
  cbn [deliver_all]. cbv [bind]. cbn [trace value world].
  rewrite forallb_app, deliver_calls. apply IH.
Qed.

Lemma tick_unfold (frame : ivec4) (w : World) :
  let w1 := exec CImGui_NewFrame
              (exec CImGui_ImplGlfw_NewFrame (exec CImGui_ImplOpenGL3_NewFrame w)) in
  let time := clock w1 in
  let action := draw_action time w1 in
  let applied := performAction action frame (exec (CRenderer_draw time action) w1) in
  let w2 := exec CglfwSwapBuffers
              (exec CImGui_ImplOpenGL3_RenderDrawData (exec CImGui_Render (world applied))) in
  let evs := pending_events w2 in
  let delivered := deliver_all evs (exec (CglfwPollEvents evs) w2) in
  tick frame w =
  mkResult (value applied) (world delivered)
    ([CImGui_ImplOpenGL3_NewFrame; CImGui_ImplGlfw_NewFrame; CImGui_NewFrame;
      CglfwGetTime time; CRenderer_draw time action]
     ++ trace applied
     ++ [CImGui_Render; CImGui_ImplOpenGL3_RenderDrawData; CglfwSwapBuffers;
         CglfwPollEvents evs]
     ++ trace delivered).
Proof.
  intros. unfold tick.
  cbv [bind ImGui_ImplOpenGL3_NewFrame ImGui_ImplGlfw_NewFrame ImGui_NewFrame glfwGetTime
       Renderer_draw ImGui_Render ImGui_ImplOpenGL3_RenderDrawData glfwSwapBuffers
       glfwPollEvents call ask get ret value world trace].
  fold w1. fold time. fold action. fold applied. fold w2. fold evs. fold delivered.
  cbn [app]. rewrite !app_nil_r. reflexivity.
Qed.

Lemma main_loop_unfold (fuel : nat) (frame : ivec4) (w : World) :
  main_loop (S fuel) frame w =
  if should_close w then mkResult true w [CglfwWindowShouldClose true]
  else let t := tick frame w in
       let r := main_loop fuel (value t) (world t) in
       mkResult (value r) (world r) (CglfwWindowShouldClose false :: trace t ++ trace r).
Proof.
  cbn [main_loop]. cbv [bind glfwWindowShouldClose get value world trace].
  destruct (should_close w); reflexivity.
Qed.

Lemma main_loop_closed (fuel : nat) (frame : ivec4) (w : World) :
  should_close w = true ->
  main_loop fuel frame w = mkResult true w [CglfwWindowShouldClose true].
Proof.
  intros Hc. destruct fuel; cbn [main_loop];
    cbv [bind glfwWindowShouldClose get value world trace]; now rewrite Hc.
Qed.

Lemma tick_calls (frame : ivec4) (w : World) :
  forallb loop_call (trace (tick frame w)) = true.
Proof.
  rewrite tick_unfold. cbn [trace]. rewrite !forallb_app. cbn [forallb].
  repeat (apply andb_true_iff; split); try reflexivity.
  - eapply forallb_weaken; [|apply performAction_calls].
    intros c Hc. unfold loop_call. now rewrite Hc.
  - eapply forallb_weaken; [|apply deliver_all_calls].
    intros c Hc. unfold loop_call. rewrite Hc. now rewrite orb_true_r.
Qed.

Lemma main_loop_calls (fuel : nat) (frame : ivec4) (w : World) :
  forallb loop_call (trace (main_loop fuel frame w)) = true.
Proof.
  revert frame w. induction fuel as [|fuel IH]; intros frame w.
  - cbn [main_loop]. cbv [bind glfwWindowShouldClose get value world trace].
    destruct (should_close w); reflexivity.
  - rewrite main_loop_unfold. destruct (should_close w); [reflexivity|].
    cbn [trace forallb]. rewrite forallb_app, tick_calls, IH. reflexivity.
Qed.

Lemma loop_and_teardown_unfold (fuel : nat) (frame : ivec4) (w : World) :
  let l := main_loop fuel frame w in
  loop_and_teardown fuel frame w =
  if value l then
    mkResult (Some 0)
      (exec CglfwTerminate
         (exec CglfwDestroyWindow
            (exec CRenderer_clean
               (exec CImGui_DestroyContext
                  (exec CImGui_ImplGlfw_Shutdown
                     (exec CImGui_ImplOpenGL3_Shutdown (world l)))))))
      (trace l ++ teardown)
  else mkResult None (world l) (trace l).
Proof.
  intros l. unfold loop_and_teardown. cbv [bind]. fold l.
  destruct (value l); cbn; now rewrite ?app_nil_r.
Qed.

(** *** The close flag once set *)

Lemma performAction_keeps_closed (a : SystemAction) (frame : ivec4) (w : World) :
  close_reported -> close_sticky ->
  should_close w = true -> should_close (world (performAction a frame w)) = true.
Proof.
  intros Hrep Hst Hw. destruct (type a) eqn:Ha.
  - now rewrite perform_none.
  - rewrite perform_fix_size by assumption. cbn [world]. now repeat apply Hst.
  - rewrite perform_free_size by assumption. cbn [world]. now repeat apply Hst.
  - destruct (window_monitor w) as [m|] eqn:Hm.
    + rewrite (perform_fullscreen_fullscreen _ _ _ _ Ha Hm). cbn [world]. now repeat apply Hst.
    + rewrite (perform_fullscreen_windowed _ _ _ Ha Hm). cbn [world]. now repeat apply Hst.
  - rewrite perform_quit by assumption. apply Hrep.
  - rewrite perform_resize by assumption. cbn [world]. now apply Hst.
Qed.

Lemma deliver_keeps_closed (e : InputEvent) (w : World) :
  close_sticky -> should_close w = true -> should_close (world (deliver e w)) = true.
Proof.
  intros Hst Hw. destruct e; cbn; try now apply Hst.
  destruct (want_capture_keyboard w); cbn; now repeat apply Hst.
Qed.

Lemma deliver_all_keeps_closed (evs : list InputEvent) (w : World) :
  close_sticky -> should_close w = true -> should_close (world (deliver_all evs w)) = true.
Proof.
  intros Hst. revert w. induction evs as [|e evs IH]; intros w Hw; [exact Hw|].
  cbn [deliver_all]. cbv [bind]. cbn [world value].
  apply IH. now apply deliver_keeps_closed.
Qed.

Lemma tick_counts (frame : ivec4) (w : World) :
  let t := trace (tick frame w) in
  count is_draw t = 1%nat /\
  count is_poll t = 1%nat /\
  count is_poll (before_first is_draw t) = 0%nat /\
  count is_poll (after_first is_draw t) = 1%nat /\
  count is_swap (before_first is_poll (after_first is_draw t)) = 1%nat.
Proof.
  intros t. subst t. rewrite tick_unfold. cbn [trace].
  set (w1 := exec CImGui_NewFrame _).
  set (applied := performAction _ _ _).
  set (w2 := exec CglfwSwapBuffers _).
  set (delivered := deliver_all _ _).
  assert (Ha : forall p, (forall c, action_call c = true -> p c = false) ->
                         count p (trace applied) = 0%nat).
  { intros p Hp. eapply count_none; [exact Hp|apply performAction_calls]. }
  assert (Hd : forall p, (forall c, callback_call c = true -> p c = false) ->
                         count p (trace delivered) = 0%nat).
  { intros p Hp. eapply count_none; [exact Hp|apply deliver_all_calls]. }
  assert (Had : count is_draw (trace applied) = 0%nat) by (apply Ha; now intros []).
  assert (Hap : count is_poll (trace applied) = 0%nat) by (apply Ha; now intros []).
  assert (Has : count is_swap (trace applied) = 0%nat) by (apply Ha; now intros []).
  assert (Hdd : count is_draw (trace delivered) = 0%nat) by (apply Hd; now intros []).
  assert (Hdp : count is_poll (trace delivered) = 0%nat) by (apply Hd; now intros []).
  split; [|split; [|split; [|split]]].
  - rewrite !count_app, Had, Hdd. reflexivity.
  - rewrite !count_app, Hap, Hdp. reflexivity.
  - reflexivity.
  - cbn [app after_first is_draw]. rewrite count_app, !count_cons, Hap, Hdp. reflexivity.
  - cbn [app after_first is_draw]. rewrite before_first_app by exact Hap.
    cbn [app before_first is_poll]. rewrite count_app, Has. reflexivity.
Qed.

End Loop.

(** ** main *)

Section Main.

Context {World : Type} `{Host World}.

Lemma startup_calls (argv : list string) (w : World) :
  forallb startup_call (trace (startup argv w)) = true.
Proof.
  unfold startup.
  cbv [bind glfwInit Configuration_new glfwCreateWindow glfwGetWindowAttrib gl3wInit
       gl3wIsSupported ask get call value world trace].
  destruct (init_ok w); [|reflexivity]. cbn [negb].
  destruct (showHelp _); [reflexivity|].
  destruct (showVersion _); [reflexivity|].
  cbn -[forallb startup_call].
  destruct (window_created _ _ _ _); [|reflexivity]. cbn -[forallb startup_call].
  destruct (gl3w_status _ =? 0); [|reflexivity]. cbn -[forallb startup_call].
  destruct (gl3w_supported _ _ _); reflexivity.
Qed.

(** Every early return of [startup] follows a call whose outcome explains
    the code returned, and that outcome is the only one of its kind in the
    transcript. *)
Lemma startup_early (argv : list string) (w : World) (c : Call) (code : Z) :
  In c (trace (startup argv w)) -> early_exit_code c = Some code ->
  value (startup argv w) = inl code.
Proof.
  step_startup.
  destruct (init_ok w) eqn:E1; cbn [negb].
  2:{ cbn. intros [<-|[<-|[]]]; cbn; congruence. }
  destruct (showHelp _) eqn:E2.
  { cbn. intros [<-|[<-|[<-|[<-|[]]]]]; cbn; congruence. }
  destruct (showVersion _) eqn:E3.
  { cbn. intros [<-|[<-|[<-|[<-|[]]]]]; cbn; congruence. }
  cbn -[In early_exit_code].
  destruct (window_created _ _ _ _) eqn:E4; cbn -[In early_exit_code].
  2:{ cbn [In app]. intros Hin. repeat (destruct Hin as [<-|Hin]; [cbn; congruence|]).
      destruct Hin. }
  destruct (gl3w_status _ =? 0) eqn:E5; cbn -[In early_exit_code].
  2:{ cbn [In app]. intros Hin.
      repeat (destruct Hin as [<-|Hin]; [cbn; rewrite ?E5; congruence|]).
      destruct Hin. }
  destruct (gl3w_supported _ _ _) eqn:E6; cbn -[In early_exit_code].
  - cbn [In app]. intros Hin.
    repeat (destruct Hin as [<-|Hin]; [cbn; rewrite ?E5; congruence|]).
    destruct Hin.
  - cbn [In app]. intros Hin.
    repeat (destruct Hin as [<-|Hin]; [cbn; rewrite ?E5; congruence|]).
    destruct Hin.
Qed.

Lemma startup_returns (argv : list string) (w : World) (code : Z) :
  value (startup argv w) = inl code ->
  exists c, In c (trace (startup argv w)) /\ early_exit_code c = Some code.
Proof.
  step_startup.
  destruct (init_ok w) eqn:E1; cbn [negb].
  2:{ cbn. intros [= <-]. exists (CglfwInit false). cbn; auto. }
  destruct (showHelp _) eqn:E2.
  { cbn. intros [= <-]. exists CConfiguration_printHelp. cbn; auto. }
  destruct (showVersion _) eqn:E3.
  { cbn. intros [= <-]. exists CConfiguration_printVersion. cbn; auto. }
  cbn -[In early_exit_code].
  destruct (window_created _ _ _ _) eqn:E4; cbn -[In early_exit_code].
  2:{ intros [= <-]. eexists (CglfwCreateWindow _ _ _ false). cbn. intuition. }
  destruct (gl3w_status _ =? 0) eqn:E5; cbn -[In early_exit_code].
  2:{ intros [= <-]. eexists (Cgl3wInit _). cbn [In app early_exit_code].
      rewrite E5. intuition. }
  destruct (gl3w_supported _ _ _) eqn:E6; cbn -[In early_exit_code].
  - discriminate.
  - intros [= <-]. eexists (Cgl3wIsSupported _ _ false). cbn. intuition.
Qed.

Lemma main_unfold (argv : list string) (fuel : nat) (w : World) :
  let s := startup argv w in
  main argv fuel w =
  match value s with
  | inl code => mkResult (Some code) (world s) (trace s)
  | inr config =>
      let i := initialise config (world s) in
      let a := startup_actions config (value i) (world i) in
      let l := loop_and_teardown fuel (value a) (world a) in
      mkResult (value l) (world l) (trace s ++ trace i ++ trace a ++ trace l)
  end.
Proof.
  intros s. unfold main. cbv [bind]. fold s.
  destruct (value s); cbn; now rewrite ?app_nil_r.
Qed.

Lemma initialise_calls (config : Configuration) (w : World) :
  forallb initialise_call (trace (initialise config w)) = true.
Proof.
  unfold initialise.
  destruct (empty (lastMidiPath config)), (empty (lastConfigPath config)); reflexivity.
Qed.

Lemma startup_actions_calls (config : Configuration) (frame : ivec4) (w : World) :
  forallb session_call (trace (startup_actions config frame w)) = true.
Proof.
  assert (Hp : forall a f w', forallb session_call (trace (performAction a f w')) = true).
  { intros a f w'. eapply forallb_weaken; [|apply performAction_calls].
    intros c Hc. unfold session_call. now rewrite Hc. }
  unfold startup_actions. cbv [bind Renderer_startDirectRecording ask ret].
  destruct (empty (path (exporting config))); cbn [negb value world trace app].
  - destruct (fullscreen config); [apply Hp|reflexivity].
  - destruct (recording_started _ _ w); cbn [negb value world trace app forallb];
      rewrite ?forallb_app, ?Hp; cbn [session_call action_call is_record orb andb forallb];
      destruct (fullscreen config); cbn [trace forallb]; rewrite ?Hp; reflexivity.
Qed.

(** When direct export fails to start, the window is asked to close and is
    still reported so when [startup_actions] is done. *)
Lemma failed_export_closes (config : Configuration) (frame : ivec4) (w : World) e s :
  close_reported -> close_sticky ->
  In (CRenderer_startDirectRecording e s false) (trace (startup_actions config frame w)) ->
  should_close (world (startup_actions config frame w)) = true /\
  In (CglfwSetWindowShouldClose GLFW_TRUE) (trace (startup_actions config frame w)).
Proof.
  intros Hrep Hst.
  assert (Hp : forall a f w', ~ In (CRenderer_startDirectRecording e s false)
                                   (trace (performAction a f w'))).
  { intros a f w'. eapply not_in_of_forallb; [apply performAction_calls|reflexivity]. }
  unfold startup_actions. cbv [bind Renderer_startDirectRecording ask ret].
  destruct (empty (path (exporting config))); cbn [negb value world trace app].
  - destruct (fullscreen config); cbn [trace]; intros Hin; [now apply Hp in Hin|destruct Hin].
  - destruct (recording_started _ _ w); cbn [negb value world trace app].
    + destruct (fullscreen config); cbn [trace In]; intros [Hin|Hin];
        try discriminate; try (now apply Hp in Hin); destruct Hin.
    + rewrite (perform_quit (action_of QUIT)) by reflexivity. cbn [value world trace app].
      intros _. split.
      * destruct (fullscreen config); cbn [world].
        -- apply performAction_keeps_closed; auto.
        -- apply Hrep.
      * right. left. reflexivity.
Qed.

Lemma loop_and_teardown_calls (fuel : nat) (frame : ivec4) (w : World) :
  forallb closing_call (trace (loop_and_teardown fuel frame w)) = true.
Proof.
  assert (Hl : forallb closing_call (trace (main_loop fuel frame w)) = true).
  { eapply forallb_weaken; [|apply main_loop_calls].
    intros c Hc. unfold closing_call. now rewrite Hc. }
  rewrite loop_and_teardown_unfold. cbv zeta.
  destruct (value (main_loop fuel frame w)); cbn [trace]; [|exact Hl].
  rewrite forallb_app, Hl. reflexivity.
Qed.

Lemma session_calls (config : Configuration) (fuel : nat) (w : World) :
  let i := initialise config w in
  let a := startup_actions config (value i) (world i) in
  let l := loop_and_teardown fuel (value a) (world a) in
  forallb late_call (trace i ++ trace a ++ trace l) = true.
Proof.
  intros i a l. rewrite !forallb_app.
  apply andb_true_iff; split; [|apply andb_true_iff; split].
  - eapply forallb_weaken; [|apply initialise_calls].
    intros c Hc. unfold late_call. now rewrite Hc.
  - eapply forallb_weaken; [|apply startup_actions_calls].
    intros c Hc. unfold late_call. rewrite Hc. now rewrite !orb_true_r.
  - eapply forallb_weaken; [|apply loop_and_teardown_calls].
    intros c Hc. unfold late_call. rewrite Hc. now rewrite !orb_true_r.
Qed.

Lemma late_call_not_early (c : Call) : late_call c = true -> early_exit_code c = None.
Proof. destruct c; cbn; try discriminate; reflexivity. Qed.

Lemma early_exit_code_range (c : Call) (code : Z) :
  early_exit_code c = Some code -> code = 0 \/ code = 2 \/ code = -1.
Proof.
  destruct c; cbn; try discriminate;
    repeat match goal with
           | |- context [match ?b with _ => _ end] => destruct b
           end; intros [= <-]; auto.
Qed.

Lemma startup_value (argv : list string) (w : World) :
  value (startup argv w) =
  if negb (init_ok w) then inl 2
  else if showHelp (options argv w) then inl 0
  else if showVersion (options argv w) then inl 0
  else if negb (window_opens argv w) then inl 2
  else if negb (loader_status argv w =? 0) then inl (-1)
  else if negb (opengl_supported argv w) then inl (-1)
  else inr (renderer_options argv w).
Proof.
  step_startup.
  unfold renderer_options, opengl_supported, world_after_loader, loader_status,
    world_positioned, window_opens, world_before_window, options, world_after_init.
  cbv zeta.
  destruct (init_ok w); cbn [negb]; [|reflexivity].
  destruct (showHelp _); [reflexivity|].
  destruct (showVersion _); [reflexivity|].
  cbn [value world trace].
  destruct (window_created _ _ _ _); cbn [negb value world trace]; [|reflexivity].
  destruct (gl3w_status _ =? 0); cbn [negb value world trace]; [|reflexivity].
  destruct (gl3w_supported _ _ _); reflexivity.
Qed.

Lemma startup_world (argv : list string) (w : World) (config : Configuration) :
  value (startup argv w) = inr config ->
  world (startup argv w) = world_after_loader argv w.
Proof.
  step_startup.
  unfold world_after_loader, loader_status,
    world_positioned, window_opens, world_before_window, options, world_after_init.
  cbv zeta.
  destruct (init_ok w); cbn [negb]; [|discriminate].
  destruct (showHelp _); [discriminate|].
  destruct (showVersion _); [discriminate|].
  cbn [value world trace].
  destruct (window_created _ _ _ _); cbn [negb value world trace]; [|discriminate].
  destruct (gl3w_status _ =? 0); cbn [negb value world trace]; [|discriminate].
  destruct (gl3w_supported _ _ _); cbn [negb value world trace]; [|discriminate].
  reflexivity.
Qed.

Lemma main_early_return (argv : list string) (fuel : nat) (w : World) (code : Z) :
  value (startup argv w) = inl code ->
  value (main argv fuel w) = Some code /\
  count is_loop_condition (trace (main argv fuel w)) = 0%nat.
Proof.
  intros Hv. rewrite main_unfold. cbv zeta. rewrite Hv. cbn [value trace].
  split; [reflexivity|].
  eapply count_none; [|apply startup_calls]. now intros [].
Qed.

Lemma main_started (argv : list string) (fuel : nat) (w : World) :
  started argv w ->
  let e := loop_entry argv w in
  let l := loop_and_teardown fuel (value e) (world e) in
  main argv fuel w =
  mkResult (value l) (world l) (trace (startup argv w) ++ trace e ++ trace l).
Proof.
  intros Hs e l.
  pose proof (startup_value argv w) as Hv.
  destruct Hs as (H1 & H2 & H3 & H4 & H5 & H6).
  rewrite H1, H2, H3, H4, H5, H6 in Hv. cbn [negb Z.eqb] in Hv.
  pose proof (startup_world argv w _ Hv) as Hw.
  rewrite main_unfold. cbv zeta. rewrite Hv, Hw.
  subst l e. unfold loop_entry. cbv [bind]. cbn [value world trace].
  now rewrite <- app_assoc.
Qed.

(** C7. The code [main] returns is decided by what the adapter answers.  It
    is 2 when [glfwInit] fails and when [glfwCreateWindow] gives no window;
    0 when the options ask for the help or the version text; -1, a code that
    is neither 0 nor 2, when [gl3wInit] fails and when OpenGL 3.2 is not
    supported.  On each of these ways out the loop condition is never
    tested: the loop is not entered.  When none of the checks fails, [main]
    returns 0 as soon as the loop is left, after the teardown, and has not
    returned while the loop runs.  No other code is ever returned. *)
Theorem exit_codes (argv : list string) (fuel : nat) (w : World) :
  let r := main argv fuel w in
  let not_looped := count is_loop_condition (trace r) = 0%nat in
  (init_ok w = false -> value r = Some 2 /\ not_looped) /\
  (init_ok w = true ->
   showHelp (options argv w) = true \/ showVersion (options argv w) = true ->
   value r = Some 0 /\ not_looped) /\
  (init_ok w = true ->
   showHelp (options argv w) = false -> showVersion (options argv w) = false ->
   window_opens argv w = false ->
   value r = Some 2 /\ not_looped) /\
  (init_ok w = true ->
   showHelp (options argv w) = false -> showVersion (options argv w) = false ->
   window_opens argv w = true -> loader_status argv w <> 0 ->
   value r = Some (-1) /\ not_looped) /\
  (init_ok w = true ->
   showHelp (options argv w) = false -> showVersion (options argv w) = false ->
   window_opens argv w = true -> loader_status argv w = 0 ->
   opengl_supported argv w = false ->
   value r = Some (-1) /\ not_looped) /\
  (started argv w ->
   let e := loop_entry argv w in
   let l := main_loop fuel (value e) (world e) in
   (value l = true ->
    value r = Some 0 /\
    trace r = trace (startup argv w) ++ trace e ++ trace l ++ teardown) /\
   (value l = false -> value r = None)) /\
  (forall code, value r = Some code -> code = 0 \/ code = 2 \/ code = -1).
Proof.
  intros r not_looped. subst r not_looped.
  pose proof (startup_value argv w) as Hv.
  split; [|split; [|split; [|split; [|split; [|split]]]]].
  - intros H1. apply main_early_return. now rewrite Hv, H1.
  - intros H1 H2. apply main_early_return. rewrite Hv, H1. cbn [negb].
    destruct H2 as [H2|H2]; rewrite H2; [reflexivity|].
    now destruct (showHelp _).
  - intros H1 H2 H3 H4. apply main_early_return. now rewrite Hv, H1, H2, H3, H4.
  - intros H1 H2 H3 H4 H5. apply main_early_return. rewrite Hv, H1, H2, H3, H4.
    cbn [negb]. apply Z.eqb_neq in H5. now rewrite H5.
  - intros H1 H2 H3 H4 H5 H6. apply main_early_return.
    now rewrite Hv, H1, H2, H3, H4, H5, H6.
  - intros Hs e l. rewrite (main_started argv fuel w Hs). cbv zeta. fold e.
    rewrite loop_and_teardown_unfold. cbv zeta. fold l.
    split; intros Hl; rewrite Hl; cbn [value trace]; [|reflexivity].
    split; reflexivity.
  - intros code. rewrite main_unfold. cbv zeta.
    destruct (value (startup argv w)) as [k|config] eqn:Es; cbn [value].
    + intros [= <-]. destruct (startup_returns _ _ _ Es) as (c & _ & Hc).
      exact (early_exit_code_range _ _ Hc).
    + rewrite loop_and_teardown_unfold. cbv zeta.
      destruct (value (main_loop _ _ _)); cbn [value]; [|discriminate].
      intros [= <-]. now left.
Qed.

(** C8. When [startDirectRecording] reports a failure, the window is asked
    to close before the loop: the loop condition is tested once and found
    true, no frame is drawn, nothing is presented, no input is polled, and
    [main] goes on to shut the overlay UI down, clean the Frame Producer,
    destroy the window, terminate GLFW and return 0.  The adapter is assumed
    to report a close request once made, until [glfwSetWindowShouldClose]
    is called again. *)
Theorem failed_export_quits (argv : list string) (fuel : nat) (w : World) :
  close_reported -> close_sticky ->
  let r := main argv fuel w in
  (exists e s, In (CRenderer_startDirectRecording e s false) (trace r)) ->
  value r = Some 0 /\
  count is_draw (trace r) = 0%nat /\
  count is_swap (trace r) = 0%nat /\
  count is_poll (trace r) = 0%nat /\
  count is_loop_condition (trace r) = 1%nat /\
  exists before,
    trace r = before ++ CglfwWindowShouldClose true :: teardown /\
    In (CglfwSetWindowShouldClose GLFW_TRUE) before.
Proof.
  intros Hrep Hst r (e & s & Hin). subst r. revert Hin.
  rewrite main_unfold. cbv zeta.
  destruct (value (startup argv w)) as [k|config] eqn:Es; cbn [value trace].
  { intros Hin. not_among Hin startup_calls. }
  set (w0 := world (startup argv w)).
  set (i := initialise config w0).
  set (a := startup_actions config (value i) (world i)).
  intros Hin.
  assert (Ha : In (CRenderer_startDirectRecording e s false) (trace a)).
  { apply in_app_or in Hin as [Hin|Hin]; [not_among Hin startup_calls|].
    apply in_app_or in Hin as [Hin|Hin]; [not_among Hin initialise_calls|].
    apply in_app_or in Hin as [Hin|Hin]; [exact Hin|].
    not_among Hin loop_and_teardown_calls. }
  destruct (failed_export_closes _ _ _ _ _ Hrep Hst Ha) as [Hclosed Hquit].
  fold a in Hclosed, Hquit.
  rewrite loop_and_teardown_unfold. cbv zeta.
  rewrite (main_loop_closed _ _ _ Hclosed). cbn [value world trace app].
  assert (Hs : forall p, (forall c, startup_call c = true -> p c = false) ->
                         count p (trace (startup argv w)) = 0%nat).
  { intros p Hp. eapply count_none; [exact Hp|apply startup_calls]. }
  assert (Hi : forall p, (forall c, initialise_call c = true -> p c = false) ->
                         count p (trace i) = 0%nat).
  { intros p Hp. eapply count_none; [exact Hp|apply initialise_calls]. }
  assert (Hc : forall p, (forall c, session_call c = true -> p c = false) ->
                         count p (trace a) = 0%nat).
  { intros p Hp. eapply count_none; [exact Hp|apply startup_actions_calls]. }
  split; [reflexivity|].
  split; [|split; [|split; [|split]]].
  - rewrite !count_app, Hs, Hi, Hc by (now intros []). reflexivity.
  - rewrite !count_app, Hs, Hi, Hc by (now intros []). reflexivity.
  - rewrite !count_app, Hs, Hi, Hc by (now intros []). reflexivity.
  - rewrite !count_app, Hs, Hi, Hc by (now intros []). reflexivity.
  - exists (trace (startup argv w) ++ trace i ++ trace a). split.
    + now rewrite <- !app_assoc.
    + apply in_or_app. right. apply in_or_app. now right.
Qed.

Lemma before_first_all (p : Call -> bool) (t : list Call) :
  count p t = 0%nat -> before_first p t = t.
Proof.
  intros Ht. rewrite <- (app_nil_r t) at 1. rewrite before_first_app by exact Ht.
  apply app_nil_r.
Qed.

Lemma first_draw_of_loop (fuel : nat) (frame : ivec4) (w : World) :
  count is_poll (before_first is_draw (trace (loop_and_teardown fuel frame w))) = 0%nat.
Proof.
  rewrite loop_and_teardown_unfold. cbv zeta.
  destruct fuel as [|fuel].
  - cbn [main_loop]. cbv [bind glfwWindowShouldClose get ret value world trace].
    destruct (should_close w); reflexivity.
  - rewrite main_loop_unfold. destruct (should_close w); [reflexivity|]. cbv zeta.
    cbn [value trace]. rewrite tick_unfold. cbn [trace].
    destruct (value (main_loop _ _ _)); reflexivity.
Qed.

(** C9, as the code has it.  In every iteration of the loop the Frame
    Producer draws first and the input events are polled last: no poll
    precedes the draw of the iteration, the one poll of the iteration follows
    it, after the buffers were swapped.  The events polled in an iteration
    are thus seen by the draw of the next one, and the first draw of a run of
    [main] is preceded by no poll at all. *)
Theorem draw_then_poll (frame : ivec4) (w : World) (argv : list string) (fuel : nat) :
  let t := trace (tick frame w) in
  count is_draw t = 1%nat /\
  count is_poll t = 1%nat /\
  count is_poll (before_first is_draw t) = 0%nat /\
  count is_poll (after_first is_draw t) = 1%nat /\
  count is_swap (before_first is_poll (after_first is_draw t)) = 1%nat /\
  count is_poll (before_first is_draw (trace (main argv fuel w))) = 0%nat.
Proof.
  intros t. pose proof (tick_counts frame w) as (H1 & H2 & H3 & H4 & H5).
  repeat (split; [assumption|]).
  rewrite main_unfold. cbv zeta.
  assert (Hs : forall p, (forall c, startup_call c = true -> p c = false) ->
                         count p (trace (startup argv w)) = 0%nat).
  { intros p Hp. eapply count_none; [exact Hp|apply startup_calls]. }
  destruct (value (startup argv w)) as [k|config]; cbn [trace].
  - rewrite before_first_all; apply Hs; now intros [].
  - set (i := initialise config _).
    set (a := startup_actions config _ _).
    assert (Hi : forall p, (forall c, initialise_call c = true -> p c = false) ->
                           count p (trace i) = 0%nat).
    { intros p Hp. eapply count_none; [exact Hp|apply initialise_calls]. }
    assert (Ha : forall p, (forall c, session_call c = true -> p c = false) ->
                           count p (trace a) = 0%nat).
    { intros p Hp. eapply count_none; [exact Hp|apply startup_actions_calls]. }
    rewrite !before_first_app by (first [apply Hs|apply Hi|apply Ha]; now intros []).
    rewrite !count_app, first_draw_of_loop.
    rewrite Hs, Hi, Ha by (now intros []). reflexivity.
Qed.

(** C3. When the Frame Producer returns QUIT in a tick, the close request
    is followed by the rest of that tick (the overlay UI is rendered, the
    buffers are swapped once, the events are polled) and only then is the
    loop condition tested, found true, and the loop left: after the draw
    that returned QUIT there is exactly one presentation and no other draw,
    up to the end of [main], which returns 0.  The adapter is assumed to
    report a close request once made, until [glfwSetWindowShouldClose] is
    called again. *)
Theorem quit_presents_once_more (fuel : nat) (frame : ivec4) (w : World) :
  close_reported -> close_sticky ->
  should_close w = false ->
  (exists time d, In (CRenderer_draw time (mk_action QUIT d)) (trace (tick frame w))) ->
  let r := loop_and_teardown (S fuel) frame w in
  let rest := after_first is_draw (trace r) in
  value r = Some 0 /\
  count is_draw (trace r) = 1%nat /\
  count is_draw rest = 0%nat /\
  count is_swap rest = 1%nat /\
  count is_loop_condition rest = 1%nat /\
  exists polled,
    rest = [CglfwSetWindowShouldClose GLFW_TRUE; CImGui_Render;
            CImGui_ImplOpenGL3_RenderDrawData; CglfwSwapBuffers]
           ++ polled ++ CglfwWindowShouldClose true :: teardown /\
    forallb (fun c => is_poll c || callback_call c) polled = true.
Proof.
  intros Hrep Hst Hopen (time & d & Hin) r rest. subst rest r.
  rewrite loop_and_teardown_unfold. cbv zeta.
  rewrite main_loop_unfold, Hopen. cbv zeta. cbn [value world trace].
  revert Hin. rewrite tick_unfold.
  set (w1 := exec CImGui_NewFrame _).
  set (action := draw_action (clock w1) w1).
  set (wd := exec (CRenderer_draw (clock w1) action) w1).
  set (applied := performAction action frame wd).
  set (w2 := exec CglfwSwapBuffers _).
  set (evs := pending_events w2).
  set (delivered := deliver_all evs _).
  cbn [value world trace]. intros Hin.
  assert (Haction : type action = QUIT).
  { cbn [app In] in Hin.
    repeat (destruct Hin as [Hin|Hin]; [try discriminate|]).
    - now injection Hin as _ ->.
    - apply in_app_or in Hin as [Hin|Hin]; [not_among Hin performAction_calls|].
      cbn [app In] in Hin.
      repeat (destruct Hin as [Hin|Hin]; [discriminate|]).
      not_among Hin deliver_all_calls. }
  assert (Happlied : applied = mkResult frame (exec (CglfwSetWindowShouldClose GLFW_TRUE) wd)
                                        [CglfwSetWindowShouldClose GLFW_TRUE])
    by (apply perform_quit; exact Haction).
  assert (Hclosed : should_close (world delivered) = true).
  { apply deliver_all_keeps_closed; [exact Hst|].
    apply Hst; [reflexivity|]. unfold w2.
    repeat (apply Hst; [reflexivity|]). rewrite Happlied. apply Hrep. }
  rewrite (main_loop_closed _ _ _ Hclosed). rewrite Happlied in *.
  cbn [value world trace app after_first is_draw].
  assert (Hd : forall p, (forall c, callback_call c = true -> p c = false) ->
                         count p (trace delivered) = 0%nat).
  { intros p Hp. eapply count_none; [exact Hp|apply deliver_all_calls]. }
  split; [reflexivity|].
  split; [|split; [|split; [|split]]].
  - rewrite !count_cons, !count_app, Hd by (now intros []). reflexivity.
  - rewrite !count_cons, !count_app, Hd by (now intros []). reflexivity.
  - rewrite !count_cons, !count_app, Hd by (now intros []). reflexivity.
  - rewrite !count_cons, !count_app, Hd by (now intros []). reflexivity.
  - exists (CglfwPollEvents evs :: trace delivered). split.
    + cbn [app]. now rewrite <- app_assoc.
    + cbn [forallb is_poll orb andb].
      eapply forallb_weaken; [|apply deliver_all_calls].
      intros c Hc. rewrite Hc. apply orb_true_r.
Qed.

End Main.

(** ** The simulated environment is an adapter of the kind assumed *)

Lemma sim_positive_sizes : @positive_sizes Sim.World Sim.host.
Proof. intros w. cbn. split; apply Pos2Z.is_pos. Qed.

Lemma sim_swap_interval_reported : @swap_interval_reported Sim.World Sim.host.
Proof. intros n w. reflexivity. Qed.

Lemma sim_resizable_reported : @resizable_reported Sim.World Sim.host.
Proof. intros v w [-> | ->]; reflexivity. Qed.

Lemma sim_resizable_kept_by_swap_interval (n : Z) :
  @resizable_kept_by Sim.World Sim.host (CglfwSwapInterval n).
Proof. intros w. reflexivity. Qed.

Lemma sim_resizable_kept_by_monitor (m : option GLFWmonitor) (x y a b r : Z) :
  @resizable_kept_by Sim.World Sim.host (CglfwSetWindowMonitor m x y a b r).
Proof. intros w. destruct m; reflexivity. Qed.

Lemma sim_close_reported : @close_reported Sim.World Sim.host.
Proof. intros w. reflexivity. Qed.

Lemma sim_close_sticky : @close_sticky Sim.World Sim.host.
Proof.
  intros c w Hc Hw. destruct c; try discriminate Hc; try exact Hw.
  - destruct created; exact Hw.
  - destruct a; exact Hw.
  - destruct m; exact Hw.
Qed.

(** ** The properties on concrete runs *)

Lemma fullscreen_twice_witness :
  let w := windowed_800x600 None [] in
  window_monitor w = None /\
  value (perform_all [action_of FULLSCREEN; action_of FULLSCREEN] frame_800x600 w)
  = mk_ivec4 100 100 800 600.
Proof.
  split; [reflexivity|].
  refine (proj1 (proj2 (fullscreen_twice frame_800x600 (windowed_800x600 None []) _ _ _))).
  - reflexivity.
  - discriminate.
  - reflexivity.
Defined.

(** C1 as stated fails: the frame still holds the geometry read at startup,
    the user has since dragged the window, the adapter restores and reports
    geometry faithfully, and two toggles leave in the frame the dragged
    position, not the value the frame had before the first toggle. *)
Lemma fullscreen_twice_stale_frame :
  let w := dragged_800x600 in
  let first := performAction (action_of FULLSCREEN) frame_800x600 w in
  let r := perform_all [action_of FULLSCREEN; action_of FULLSCREEN] frame_800x600 w in
  window_monitor w = None /\
  restores_faithfully (world first) (value first) /\
  value r = mk_ivec4 200 200 800 600 /\
  value r <> frame_800x600.
Proof. repeat split; try reflexivity. discriminate. Qed.

Lemma frame_stays_positive_witness :
  let w := windowed_800x600 (Some (1280, 800)%positive) [] in
  @positive_sizes Sim.World Sim.host /\
  Forall positive_frame
    (frame_of w :: frames_after [(action_of FULLSCREEN, w); (resize_to 0 (-5), fullscreen_window);
                                 (action_of FULLSCREEN, fullscreen_window)] (frame_of w)).
Proof.
  split; [exact sim_positive_sizes|].
  apply (frame_stays_positive (windowed_800x600 (Some (1280, 800)%positive) []) _
                              Sim.plain_config).
  exact sim_positive_sizes.
Defined.

Lemma quit_presents_once_more_witness :
  let w := windowed_800x600 None [action_of QUIT; action_of NONE] in
  let r := loop_and_teardown 5 frame_800x600 w in
  should_close w = false /\
  value r = Some 0 /\
  count is_swap (after_first is_draw (trace r)) = 1%nat /\
  count is_draw (trace r) = 1%nat.
Proof.
  pose proof (quit_presents_once_more 4 frame_800x600
                (windowed_800x600 None [action_of QUIT; action_of NONE])
                sim_close_reported sim_close_sticky eq_refl) as Hq.
  cbv zeta in Hq |- *.
  destruct Hq as (Hv & Hd & _ & Hs & _).
  - exists 0, ivec4_zero. vm_compute. tauto.
  - repeat split; assumption.
Defined.

Lemma resize_rereads_frame_witness :
  let w := windowed_800x600 (Some (1280, 800)%positive) [] in
  let r := performAction (resize_to 1920 1080) frame_800x600 w in
  window_size (exec (CglfwSetWindowSize 1920 1080) w) = (1280, 800) /\
  value r = mk_ivec4 100 100 1280 800 /\
  (v2 (value r), v3 (value r)) <> (1920, 1080).
Proof.
  pose proof (resize_rereads_frame (mk_ivec4 1920 1080 0 0) frame_800x600
                (windowed_800x600 (Some (1280, 800)%positive) [])) as Hr.
  cbv zeta in Hr |- *. destruct Hr as (_ & _ & _ & _ & Hne).
  split; [reflexivity|]. split; [reflexivity|]. apply Hne. discriminate.
Defined.

Lemma lock_then_unlock_witness :
  let r := perform_all [action_of FIX_SIZE; action_of FREE_SIZE] frame_800x600
                       (windowed_800x600 None []) in
  swap_interval (world r) = 1 /\ window_attrib GLFW_RESIZABLE (world r) = GLFW_TRUE.
Proof.
  pose proof (lock_then_unlock frame_800x600 (windowed_800x600 None [])
                sim_swap_interval_reported sim_resizable_reported
                sim_resizable_kept_by_swap_interval) as Hl.
  cbv zeta in Hl |- *. destruct Hl as (Hi & Ha & _). split; assumption.
Defined.

(** C5 as stated fails: a window that was not resizable before LOCK_SIZE is
    resizable after UNLOCK_SIZE. *)
Lemma lock_then_unlock_not_restored :
  let w := locked_window in
  let r := perform_all [action_of FIX_SIZE; action_of FREE_SIZE] frame_800x600 w in
  window_attrib GLFW_RESIZABLE w = GLFW_FALSE /\
  window_attrib GLFW_RESIZABLE (world r) = GLFW_TRUE /\
  window_attrib GLFW_RESIZABLE (world r) <> window_attrib GLFW_RESIZABLE w.
Proof. repeat split; try reflexivity. discriminate. Qed.

(** C6 as stated fails twice.  A resize applied while the window is
    fullscreen overwrites the frame with the fullscreen geometry; and a
    toggle out of fullscreen overwrites it with the geometry read after the
    restore, here a size clamped to the usable area. *)
Lemma frame_written_while_fullscreen :
  let w := fullscreen_window in
  let saved := mk_ivec4 100 100 1600 900 in
  window_monitor w <> None /\
  value (performAction (resize_to 640 480) saved w) = mk_ivec4 0 0 640 480 /\
  value (performAction (resize_to 640 480) saved w) <> saved /\
  value (performAction (action_of FULLSCREEN) saved w) = mk_ivec4 100 100 1280 800 /\
  value (performAction (action_of FULLSCREEN) saved w) <> saved.
Proof. repeat split; try reflexivity; discriminate. Qed.

Lemma frame_written_at_three_places_witness :
  value (performAction (action_of QUIT) frame_800x600 fullscreen_window) = frame_800x600.
Proof.
  exact (frame_written_at_three_places (action_of QUIT) frame_800x600 fullscreen_window).
Defined.

Lemma lock_then_fullscreen_witness :
  let r := perform_all [action_of FIX_SIZE; action_of FULLSCREEN] frame_800x600
                       (windowed_800x600 None []) in
  swap_interval (world r) = 1 /\ window_attrib GLFW_RESIZABLE (world r) = GLFW_FALSE.
Proof.
  pose proof (lock_then_fullscreen frame_800x600 (windowed_800x600 None [])
                sim_swap_interval_reported sim_resizable_reported
                sim_resizable_kept_by_swap_interval sim_resizable_kept_by_monitor) as Hl.
  cbv zeta in Hl |- *. destruct Hl as (_ & Hi & Ha). split; assumption.
Defined.

(** C9 as stated fails: in a tick the draw is the fifth call and the poll
    the last one. *)
Lemma poll_follows_draw :
  let t := trace (tick frame_800x600 (windowed_800x600 None [action_of NONE])) in
  t = [CImGui_ImplOpenGL3_NewFrame; CImGui_ImplGlfw_NewFrame; CImGui_NewFrame;
       CglfwGetTime 0; CRenderer_draw 0 (action_of NONE);
       CImGui_Render; CImGui_ImplOpenGL3_RenderDrawData; CglfwSwapBuffers;
       CglfwPollEvents []] /\
  count is_poll (before_first is_draw t) = 0%nat /\
  count is_draw (before_first is_poll t) = 1%nat.
Proof. repeat split. Qed.

Lemma exit_codes_witness :
  init_ok no_glfw = false /\ value (main [] 3 no_glfw) = Some 2 /\
  started [] plain_boot /\ value (main [] 5 plain_boot) = Some 0.
Proof.
  assert (Hs : started [] plain_boot) by (repeat split; reflexivity).
  split; [reflexivity|]. split; [|split; [exact Hs|]].
  - apply (proj1 (exit_codes [] 3 no_glfw)). reflexivity.
  - apply (proj1 (proj2 (proj2 (proj2 (proj2 (proj2 (exit_codes [] 5 plain_boot))))))
             Hs).
    reflexivity.
Defined.

Lemma failed_export_quits_witness :
  let r := main [] 0 failing_export in
  (exists e s, In (CRenderer_startDirectRecording e s false) (trace r)) /\
  value r = Some 0 /\ count is_draw (trace r) = 0%nat.
Proof.
  assert (Hin : exists e s, In (CRenderer_startDirectRecording e s false)
                               (trace (main [] 0 failing_export))).
  { exists (mk_export "out.mp4"), (800, 600). vm_compute. tauto. }
  split; [exact Hin|].
  pose proof (failed_export_quits [] 0 failing_export sim_close_reported sim_close_sticky Hin)
    as (Hv & Hd & _).
  split; assumption.
Defined.

(** ** The callbacks *)

Section Callbacks.

Context {World : Type} `{Host World}.

Lemma deliver_all_cons (e : InputEvent) (evs : list InputEvent) (w : World) :
  deliver_all (e :: evs) w =
  mkResult (value (deliver_all evs (world (deliver e w))))
           (world (deliver_all evs (world (deliver e w))))
           (trace (deliver e w) ++ trace (deliver_all evs (world (deliver e w)))).
Proof. reflexivity. Qed.

(** X1. Whatever the overlay UI wants to capture, the callbacks hand it every
    key, scroll and character event that was polled, in the order polled and
    with the arguments GLFW gave; a change of the framebuffer size is not
    handed to it. *)
Theorem ui_gets_every_input (evs : list InputEvent) (w : World) :
  filter is_ui_input (trace (deliver_all evs w)) = ui_inputs evs.
Proof.
  revert w. induction evs as [|e evs IH]; intros w; [reflexivity|].
  rewrite deliver_all_cons. cbn [trace]. rewrite filter_app, IH.
  unfold ui_inputs. cbn [flat_map]. f_equal.
  destruct e; cbn; try reflexivity.
  destruct (want_capture_keyboard w); reflexivity.
Qed.

Lemma deliver_keeps_capture (e : InputEvent) (w : World) :
  capture_steady ->
  want_capture_keyboard (world (deliver e w)) = want_capture_keyboard w.
Proof.
  intros Hc. destruct e; cbn; try (now apply Hc).
  destruct (want_capture_keyboard w) eqn:E; cbn; rewrite ?Hc by reflexivity; exact E.
Qed.

(** X2. The renderer is handed every change of the framebuffer size, and
    every key event as its key and action (scancode and modifiers are
    dropped) unless the overlay UI wants the keyboard, in which case it is
    handed no key at all; scroll and character events never reach it.  The
    callbacks are assumed not to change what the overlay UI wants. *)
Theorem renderer_gets_uncaptured_input (evs : list InputEvent) (w : World) :
  capture_steady ->
  filter is_renderer_input (trace (deliver_all evs w))
  = renderer_inputs (want_capture_keyboard w) evs.
Proof.
  intros Hc. revert w. induction evs as [|e evs IH]; intros w; [reflexivity|].
  rewrite deliver_all_cons. cbn [trace]. rewrite filter_app, IH.
  rewrite (deliver_keeps_capture e w Hc).
  unfold renderer_inputs. cbn [flat_map]. f_equal.
  destruct e; cbn; try reflexivity.
  destruct (want_capture_keyboard w); reflexivity.
Qed.

End Callbacks.

(** ** More on performAction *)

Section MoreActions.

Context {World : Type} `{Host World}.

(** X3. A FULLSCREEN action toggles: applied to a windowed window it leaves
    the window bound to the primary monitor, applied to a fullscreen window
    it leaves it windowed.  The adapter is assumed to report the monitor it
    was last given and to keep it when the swap interval is set. *)
Theorem fullscreen_toggles (frame : ivec4) (w : World) :
  monitor_reported -> monitor_kept_by_swap_interval ->
  window_monitor (world (performAction (action_of FULLSCREEN) frame w)) =
  match window_monitor w with
  | None => Some (primary_monitor w)
  | Some _ => None
  end.
Proof.
  intros Hm Hs. destruct (window_monitor w) as [m|] eqn:E.
  - rewrite (perform_fullscreen_fullscreen (action_of FULLSCREEN) _ _ _ eq_refl E).
    cbn [world]. now rewrite Hs, Hm.
  - rewrite (perform_fullscreen_windowed (action_of FULLSCREEN) _ _ eq_refl E).
    cbn [world]. now rewrite Hs, Hm.
Qed.

(** X4. The geometry saved for leaving fullscreen does not survive a resize
    made while fullscreen: when a RESIZE is applied to a fullscreen window
    and the window is still fullscreen afterwards, the next FULLSCREEN asks
    the adapter to restore the position and size read after the resize, and
    the frame held before the resize has no part in the request. *)
Theorem resize_in_fullscreen_forgets_backup (d frame : ivec4) (w : World) (m : GLFWmonitor) :
  let resized := exec (CglfwSetWindowSize (v0 d) (v1 d)) w in
  window_monitor resized = Some m ->
  let read := frame_of resized in
  let restore := CglfwSetWindowMonitor None (v0 read) (v1 read) (v2 read) (v3 read) 0 in
  let r := perform_all [mk_action RESIZE d; action_of FULLSCREEN] frame w in
  trace r = [CglfwSetWindowSize (v0 d) (v1 d);
             CglfwGetWindowPos (window_pos resized);
             CglfwGetWindowSize (window_size resized);
             CglfwGetWindowMonitor (Some m);
             restore;
             CglfwGetWindowPos (window_pos (exec restore resized));
             CglfwGetWindowSize (window_size (exec restore resized));
             CglfwSwapInterval 1] /\
  value r = frame_of (exec restore resized).
Proof.
  intros resized Hm read restore r. subst r.
  cbn [perform_all]. cbv [bind].
  rewrite (perform_resize (mk_action RESIZE d) frame w eq_refl).
  cbn [value world trace data]. fold resized. fold read.
  rewrite (perform_fullscreen_fullscreen (action_of FULLSCREEN) read resized m eq_refl Hm).
  cbn [value world trace ret app]. fold restore. split; reflexivity.
Qed.

(** The only close request [performAction] makes is one that sets the flag. *)
Lemma performAction_keeps_close_request (a : SystemAction) (frame : ivec4) (w : World) :
  forallb keeps_close_request (trace (performAction a frame w)) = true.
Proof.
  destruct (type a) eqn:Ha.
  - now rewrite perform_none.
  - now rewrite perform_fix_size.
  - now rewrite perform_free_size.
  - destruct (window_monitor w) as [m|] eqn:Hm.
    + now rewrite (perform_fullscreen_fullscreen _ _ _ _ Ha Hm).
    + now rewrite (perform_fullscreen_windowed _ _ _ Ha Hm).
  - now rewrite perform_quit.
  - now rewrite perform_resize.
Qed.

End MoreActions.

(** ** More on the loop *)



Section MoreLoop.

Context {World : Type} `{Host World}.

Lemma tick_presents_once (frame : ivec4) (w : World) :
  count is_swap (trace (tick frame w)) = 1%nat /\
  count is_loop_condition (trace (tick frame w)) = 0%nat.
Proof.
  rewrite tick_unfold. cbn [trace].
  set (applied := performAction _ _ _).
  set (delivered := deliver_all _ _).
  assert (Ha : forall p, (forall c, action_call c = true -> p c = false) ->
                         count p (trace applied) = 0%nat).
  { intros p Hp. eapply count_none; [exact Hp|apply performAction_calls]. }
  assert (Hd : forall p, (forall c, callback_call c = true -> p c = false) ->
                         count p (trace delivered) = 0%nat).
  { intros p Hp. eapply count_none; [exact Hp|apply deliver_all_calls]. }
  split; rewrite !count_app, Ha, Hd by (now intros []); reflexivity.
Qed.

(** X5. Whatever the fuel, the frame and the world, the loop presents every
    frame it draws and polls the events once per frame: the transcript has
    as many buffer swaps and as many polls as draws, and one more test of the
    loop condition.  It draws at most [fuel] frames, exactly [fuel] when the
    bound is reached, and the value it gives is the close flag the adapter
    reports in the world it ends in. *)
Theorem loop_presents_every_frame (fuel : nat) (frame : ivec4) (w : World) :
  let r := main_loop fuel frame w in
  let frames := count is_draw (trace r) in
  count is_swap (trace r) = frames /\
  count is_poll (trace r) = frames /\
  count is_loop_condition (trace r) = S frames /\
  (frames <= fuel)%nat /\
  (value r = false -> frames = fuel) /\
  value r = should_close (world r).
Proof.
  cbv zeta. revert frame w. induction fuel as [|fuel IH]; intros frame w.
  - cbn [main_loop]. cbv [bind glfwWindowShouldClose get ret value world trace].
    destruct (should_close w) eqn:E; cbn; rewrite ?E; repeat split; auto; discriminate.
  - rewrite main_loop_unfold. destruct (should_close w) eqn:E.
    + cbn. rewrite E. repeat split; auto with arith. discriminate.
    + cbv zeta. cbn [value world trace].
      destruct (IH (value (tick frame w)) (world (tick frame w)))
        as (Hs & Hp & Hc & Hle & Hf & Hv).
      destruct (tick_counts frame w) as (Td & Tp & _).
      destruct (tick_presents_once frame w) as (Ts & Tc).
      rewrite !count_cons, !count_app. cbn [is_swap is_poll is_draw is_loop_condition].
      rewrite Td, Tp, Ts, Tc, Hs, Hp, Hc.
      repeat split; try lia; try exact Hv.
      intros Hfalse. specialize (Hf Hfalse). lia.
Qed.

(** Every call of a run of the loop is as [good] wants it, when the calls
    of a tick, of the callbacks and of [performAction] are. *)
Lemma main_loop_all (good : Call -> bool) :
  (forall c, tick_call c = true -> good c = true) ->
  (forall c, callback_call c = true -> good c = true) ->
  (forall a f w, forallb good (trace (performAction a f w)) = true) ->
  forall fuel frame w, forallb good (trace (main_loop fuel frame w)) = true.
Proof.
  intros Ht Hc Ha. induction fuel as [|fuel IH]; intros frame w.
  - cbn [main_loop]. cbv [bind glfwWindowShouldClose get ret value world trace].
    destruct (should_close w); cbn; now rewrite Ht.
  - rewrite main_loop_unfold. destruct (should_close w).
    + cbn. now rewrite Ht.
    + cbv zeta. cbn [trace forallb]. rewrite forallb_app, IH, Ht by reflexivity.
      rewrite tick_unfold. cbn [trace]. rewrite !forallb_app, Ha. cbn [forallb].
      rewrite !Ht by reflexivity.
      rewrite (forallb_weaken callback_call good _ Hc (deliver_all_calls _ _)).
      reflexivity.
Qed.

End MoreLoop.

(** ** More on main *)

Section MoreMain.

Context {World : Type} `{Host World}.

Lemma startup_actions_all (good : Call -> bool) (config : Configuration)
      (frame : ivec4) (w : World) :
  (forall e s b, good (CRenderer_startDirectRecording e s b) = true) ->
  (forall a f w', type a = QUIT \/ type a = FULLSCREEN ->
                  forallb good (trace (performAction a f w')) = true) ->
  forallb good (trace (startup_actions config frame w)) = true.
Proof.
  intros Hr Hp.
  unfold startup_actions. cbv [bind Renderer_startDirectRecording ask ret].
  destruct (empty (path (exporting config))); cbn [negb value world trace app].
  - destruct (fullscreen config); [apply Hp; now right|reflexivity].
  - destruct (recording_started _ _ w); cbn [negb value world trace app forallb];
      rewrite ?forallb_app, Hr; cbn [andb].
    + destruct (fullscreen config); [apply Hp; now right|reflexivity].
    + rewrite Hp by now left. cbn [andb].
      destruct (fullscreen config); [apply Hp; now right|reflexivity].
Qed.

Lemma loop_starts_with_condition (fuel : nat) (frame : ivec4) (w : World) :
  before_first is_loop_condition (trace (loop_and_teardown fuel frame w)) = [].
Proof.
  rewrite loop_and_teardown_unfold. cbv zeta.
  assert (Hl : exists b rest, trace (main_loop fuel frame w) = CglfwWindowShouldClose b :: rest).
  { destruct fuel as [|fuel].
    - cbn [main_loop]. cbv [bind glfwWindowShouldClose get ret value world trace].
      destruct (should_close w); cbn; eauto.
    - rewrite main_loop_unfold. destruct (should_close w); cbn; eauto. }
  destruct Hl as (b & rest & Hl).
  destruct (value (main_loop fuel frame w)); cbn [trace]; rewrite Hl; reflexivity.
Qed.

(** X7. Nothing in [main] withdraws a close request: every call of
    [glfwSetWindowShouldClose] a run makes, at startup or in any tick and
    whatever the renderer asks for, sets the flag. *)
Theorem close_request_never_withdrawn (argv : list string) (fuel : nat) (w : World) (v : Z) :
  In (CglfwSetWindowShouldClose v) (trace (main argv fuel w)) -> v = GLFW_TRUE.
Proof.
  assert (Hall : forallb keeps_close_request (trace (main argv fuel w)) = true).
  { rewrite main_unfold. cbv zeta.
    assert (Hs : forallb keeps_close_request (trace (startup argv w)) = true).
    { eapply forallb_weaken; [|apply startup_calls]. now intros []. }
    destruct (value (startup argv w)) as [c|config]; cbn [trace]; [exact Hs|].
    rewrite !forallb_app, Hs. cbn [andb].
    apply andb_true_iff; split; [|apply andb_true_iff; split].
    - eapply forallb_weaken; [|apply initialise_calls]. now intros [].
    - apply startup_actions_all; [reflexivity|].
      intros a f w' _. apply performAction_keeps_close_request.
    - rewrite loop_and_teardown_unfold. cbv zeta.
      assert (Hl : forall fu fr w',
                 forallb keeps_close_request (trace (main_loop fu fr w')) = true).
      { apply main_loop_all.
        - now intros [].
        - now intros [].
        - apply performAction_keeps_close_request. }
      destruct (value (main_loop _ _ _)); cbn [trace]; rewrite ?forallb_app, Hl; reflexivity. }
  intros Hin. rewrite forallb_forall in Hall. apply Hall in Hin.
  cbn in Hin. now apply Z.eqb_eq in Hin.
Qed.

Lemma initialise_sets_vsync (config : Configuration) (w : World) :
  In (CglfwSwapInterval 1) (trace (initialise config w)).
Proof.
  unfold initialise.
  destruct (empty (lastMidiPath config)), (empty (lastConfigPath config));
    cbn; tauto.
Qed.

Lemma initialise_keeps_vsync (config : Configuration) (w : World) :
  forallb keeps_vsync (trace (initialise config w)) = true.
Proof.
  unfold initialise.
  destruct (empty (lastMidiPath config)), (empty (lastConfigPath config)); reflexivity.
Qed.

(** X8. When the loop is reached, vertical sync is on and the window size is
    not locked by [main] itself, whatever the options, direct export
    included: before the first test of the loop condition [glfwSwapInterval]
    was called with 1, it was called with nothing else, and no window
    attribute was set. *)
Theorem loop_entered_with_vsync (argv : list string) (fuel : nat) (w : World) :
  let t := trace (main argv fuel w) in
  let before := before_first is_loop_condition t in
  (forall n, In (CglfwSwapInterval n) before -> n = 1) /\
  (forall a v, ~ In (CglfwSetWindowAttrib a v) before) /\
  (count is_loop_condition t <> 0%nat -> In (CglfwSwapInterval 1) before).
Proof.
  cbv zeta. rewrite main_unfold. cbv zeta.
  assert (Hs : forall p, (forall c, startup_call c = true -> p c = false) ->
                         count p (trace (startup argv w)) = 0%nat).
  { intros p Hp. eapply count_none; [exact Hp|apply startup_calls]. }
  assert (Hsv : forallb keeps_vsync (trace (startup argv w)) = true).
  { eapply forallb_weaken; [|apply startup_calls]. now intros []. }
  assert (Hgoal : forall t : list Call,
             forallb keeps_vsync t = true ->
             (forall n, In (CglfwSwapInterval n) t -> n = 1) /\
             (forall a v, ~ In (CglfwSetWindowAttrib a v) t)).
  { intros t Ht. rewrite forallb_forall in Ht. split.
    - intros n Hin. apply Ht in Hin. cbn in Hin. now apply Z.eqb_eq in Hin.
    - intros a v Hin. apply Ht in Hin. discriminate. }
  destruct (value (startup argv w)) as [c|config]; cbn [trace].
  - rewrite before_first_all by (apply Hs; now intros []).
    destruct (Hgoal _ Hsv) as [H1 H2]. split; [exact H1|split; [exact H2|]].
    intros Hc. exfalso. apply Hc. apply Hs. now intros [].
  - set (i := initialise config _).
    set (a := startup_actions config _ _).
    assert (Hi : count is_loop_condition (trace i) = 0%nat).
    { eapply count_none; [|apply initialise_calls]. now intros []. }
    assert (Ha : count is_loop_condition (trace a) = 0%nat).
    { eapply count_none; [|apply startup_actions_calls]. now intros []. }
    rewrite !before_first_app by (first [exact Hi|exact Ha|apply Hs; now intros []]).
    rewrite loop_starts_with_condition, app_nil_r.
    assert (Hv : forallb keeps_vsync (trace (startup argv w) ++ trace i ++ trace a) = true).
    { rewrite !forallb_app, Hsv. cbn [andb]. apply andb_true_iff; split.
      - apply initialise_keeps_vsync.
      - apply startup_actions_all; [reflexivity|].
        intros act f w' [Hq|Hf].
        + now rewrite perform_quit.
        + destruct (window_monitor w') as [m|] eqn:Hm.
          * now rewrite (perform_fullscreen_fullscreen _ _ _ _ Hf Hm).
          * now rewrite (perform_fullscreen_windowed _ _ _ Hf Hm). }
    destruct (Hgoal _ Hv) as [H1 H2]. split; [exact H1|split; [exact H2|]].
    intros _. apply in_or_app. right. apply in_or_app. left.
    apply initialise_sets_vsync.
Qed.

End MoreMain.

Section Startup.

Context {World : Type} `{Host World}.

Lemma initialise_scale (config : Configuration) (w : World) (a b n d : Z) :
  let t := trace (initialise config w) in
  In (CRenderer_resizeAndRescale a b n d) t ->
  n = a /\
  In (CglfwGetFramebufferSize (a, b)) t /\
  exists size, In (CglfwGetWindowSize size) t /\ d = Z.max (fst size) 1.
Proof.
  unfold initialise.
  destruct (empty (lastMidiPath config)), (empty (lastConfigPath config));
    cbn -[Z.max]; intros Hin;
    repeat (destruct Hin as [Hin|Hin]; [try discriminate Hin|]); try contradiction;
    injection Hin as <- <- <- <-;
    (split; [reflexivity|]); rewrite <- surjective_pairing;
    (split; [tauto|]); eexists; (split; [|reflexivity]); tauto.
Qed.

(** A call of [resizeAndRescale] in a run of [main] is one [initialise] made. *)
Lemma rescaling_only_in_initialise (argv : list string) (fuel : nat) (w : World) (c : Call) :
  is_rescaling c = true ->
  In c (trace (main argv fuel w)) ->
  exists config w', In c (trace (initialise config w')) /\
                    forall c', In c' (trace (initialise config w')) ->
                               In c' (trace (main argv fuel w)).
Proof.
  intros Hc. rewrite main_unfold. cbv zeta.
  destruct (value (startup argv w)) as [k|config]; cbn [trace]; intros Hin.
  - exfalso. revert Hin. eapply not_in_of_forallb; [apply startup_calls|].
    destruct c; try discriminate Hc; reflexivity.
  - apply in_app_or in Hin as [Hin|Hin].
    { exfalso. revert Hin. eapply not_in_of_forallb; [apply startup_calls|].
      destruct c; try discriminate Hc; reflexivity. }
    apply in_app_or in Hin as [Hin|Hin].
    + exists config, (world (startup argv w)). split; [exact Hin|].
      intros c' Hc'. apply in_or_app. right. apply in_or_app. now left.
    + exfalso. apply in_app_or in Hin as [Hin|Hin]; revert Hin.
      * eapply not_in_of_forallb; [apply startup_actions_calls|].
        destruct c; try discriminate Hc; reflexivity.
      * eapply not_in_of_forallb; [apply loop_and_teardown_calls|].
        destruct c; try discriminate Hc; reflexivity.
Qed.

(** X9. The scale handed to the renderer is never a division by zero: in
    every run, a call of [resizeAndRescale] carries the framebuffer size
    [glfwGetFramebufferSize] reported and, as the scale, the quotient of the
    framebuffer width by the larger of 1 and the window width
    [glfwGetWindowSize] reported; the divisor is at least 1 even when the
    adapter reports a width of zero or less. *)
Theorem scale_divisor_at_least_one (argv : list string) (fuel : nat) (w : World)
        (a b n d : Z) :
  let t := trace (main argv fuel w) in
  In (CRenderer_resizeAndRescale a b n d) t ->
  n = a /\ 1 <= d /\
  In (CglfwGetFramebufferSize (a, b)) t /\
  exists size, In (CglfwGetWindowSize size) t /\ d = Z.max (fst size) 1.
Proof.
  cbv zeta. intros Hin.
  destruct (rescaling_only_in_initialise argv fuel w (CRenderer_resizeAndRescale a b n d) eq_refl Hin)
    as (config & w' & Hi & Hsub).
  destruct (initialise_scale config w' a b n d Hi) as (Hn & Hfb & size & Hsize & Hd).
  split; [exact Hn|]. split; [subst d; apply Z.le_max_r|].
  split; [now apply Hsub|]. exists size. split; [now apply Hsub|exact Hd].
Qed.

Lemma startup_success_checked (argv : list string) (w : World) (config : Configuration) :
  value (startup argv w) = inr config ->
  count is_gl_ready (trace (startup argv w)) = 1%nat /\
  count is_terminate (trace (startup argv w)) = 0%nat.
Proof.
  step_startup.
  destruct (init_ok w); cbn [negb]; [|discriminate].
  destruct (showHelp _); [discriminate|].
  destruct (showVersion _); [discriminate|].
  cbn -[count].
  destruct (window_created _ _ _ _); cbn -[count]; [|discriminate].
  destruct (gl3w_status _ =? 0); cbn -[count]; [|discriminate].
  destruct (gl3w_supported _ _ _); cbn -[count]; [|discriminate].
  intros _. split; reflexivity.
Qed.



Lemma startup_terminations (argv : list string) (w : World) (c : Call) (code : Z) :
  In c (trace (startup argv w)) -> early_exit_code c = Some code ->
  count is_terminate (trace (startup argv w)) = terminations_after c.
Proof.
  step_startup.
  destruct (init_ok w) eqn:E1; cbn [negb].
  2:{ cbn. intros [<-|[<-|[]]]; cbn; congruence. }
  destruct (showHelp _) eqn:E2.
  { cbn. intros [<-|[<-|[<-|[<-|[]]]]]; cbn; congruence. }
  destruct (showVersion _) eqn:E3.
  { cbn. intros [<-|[<-|[<-|[<-|[]]]]]; cbn; congruence. }
  cbn -[In early_exit_code count terminations_after].
  destruct (window_created _ _ _ _) eqn:E4; cbn -[In early_exit_code count terminations_after].
  2:{ cbn [In app]. intros Hin.
      repeat (destruct Hin as [<-|Hin]; [cbn; congruence|]). destruct Hin. }
  destruct (gl3w_status _ =? 0) eqn:E5; cbn -[In early_exit_code count terminations_after].
  2:{ cbn [In app]. intros Hin.
      repeat (destruct Hin as [<-|Hin]; [cbn; rewrite ?E5; congruence|]). destruct Hin. }
  destruct (gl3w_supported _ _ _) eqn:E6; cbn -[In early_exit_code count terminations_after].
  - cbn [In app]. intros Hin.
    repeat (destruct Hin as [<-|Hin]; [cbn; rewrite ?E5; congruence|]). destruct Hin.
  - cbn [In app]. intros Hin.
    repeat (destruct Hin as [<-|Hin]; [cbn; rewrite ?E5; congruence|]). destruct Hin.
Qed.

Lemma main_terminations (argv : list string) (fuel : nat) (w : World) (c : Call) (code : Z) :
  In c (trace (main argv fuel w)) -> early_exit_code c = Some code ->
  count is_terminate (trace (main argv fuel w)) = terminations_after c /\
  count is_destroy (trace (main argv fuel w)) = 0%nat /\
  count is_clean (trace (main argv fuel w)) = 0%nat.
Proof.
  rewrite main_unfold. cbv zeta. intros Hin Hc.
  destruct (value (startup argv w)) as [k|config] eqn:Es; cbn [value trace] in *.
  - split; [exact (startup_terminations argv w c code Hin Hc)|].
    split; (eapply count_none; [|apply startup_calls]); now intros [].
  - exfalso. apply in_app_or in Hin as [Hin|Hin].
    + pose proof (startup_early _ _ _ _ Hin Hc) as Hk. congruence.
    + pose proof (session_calls config fuel (world (startup argv w))) as Hl. cbv zeta in Hl.
      rewrite forallb_forall in Hl. apply Hl, late_call_not_early in Hin. congruence.
Qed.

(** X11. What is released on each way out of [main].  After a failed
    [glfwInit], and after a failed OpenGL loader or an unsupported OpenGL
    version, [main] returns without calling [glfwTerminate]; after the help
    or version text and after a failed window creation it calls
    [glfwTerminate] once.  None of these ways out destroys the window or
    cleans the renderer.  A run that destroys the window ends with the
    shutdown of the overlay UI, the cleaning of the renderer, the destruction
    of the window and [glfwTerminate], in this order, each made once. *)
Theorem releases_on_exit (argv : list string) (fuel : nat) (w : World) :
  let t := trace (main argv fuel w) in
  let kept := count is_destroy t = 0%nat /\ count is_clean t = 0%nat in
  (In (CglfwInit false) t -> count is_terminate t = 0%nat /\ kept) /\
  (forall status, status <> 0 -> In (Cgl3wInit status) t ->
     count is_terminate t = 0%nat /\ kept) /\
  (forall major minor, In (Cgl3wIsSupported major minor false) t ->
     count is_terminate t = 0%nat /\ kept) /\
  (forall a b title, In (CglfwCreateWindow a b title false) t ->
     count is_terminate t = 1%nat /\ kept) /\
  (In CConfiguration_printHelp t \/ In CConfiguration_printVersion t ->
     count is_terminate t = 1%nat /\ kept) /\
  (In CglfwDestroyWindow t ->
     exists before, t = before ++ teardown /\
       count is_terminate before = 0%nat /\ count is_destroy before = 0%nat /\
       count is_clean before = 0%nat).
Proof.
  cbv zeta. split; [|split; [|split; [|split; [|split]]]].
  - intros Hin. now apply (main_terminations _ _ _ _ 2 Hin).
  - intros status Hs Hin. apply (main_terminations _ _ _ _ (-1) Hin). cbn.
    destruct (Z.eqb_spec status 0); [contradiction|reflexivity].
  - intros major minor Hin. now apply (main_terminations _ _ _ _ (-1) Hin).
  - intros a b title Hin. now apply (main_terminations _ _ _ _ 2 Hin).
  - intros [Hin|Hin]; now apply (main_terminations _ _ _ _ 0 Hin).
  - rewrite main_unfold. cbv zeta.
    destruct (value (startup argv w)) as [k|config] eqn:Es; cbn [value trace].
    { intros Hin. not_among Hin startup_calls. }
    rewrite loop_and_teardown_unfold. cbv zeta.
    set (i := initialise config _).
    set (a := startup_actions config _ _).
    set (l := main_loop fuel _ _).
    destruct (value l); cbn [value trace].
    + intros _. exists (trace (startup argv w) ++ trace i ++ trace a ++ trace l).
      split; [now rewrite <- !app_assoc|].
      destruct (startup_success_checked argv w config Es) as [_ Ht].
      assert (Hs : forall p, (forall c, startup_call c = true -> p c = false) ->
                             count p (trace (startup argv w)) = 0%nat).
      { intros p Hp. eapply count_none; [exact Hp|apply startup_calls]. }
      assert (Hi : forall p, (forall c, initialise_call c = true -> p c = false) ->
                             count p (trace i) = 0%nat).
      { intros p Hp. eapply count_none; [exact Hp|apply initialise_calls]. }
      assert (Ha : forall p, (forall c, session_call c = true -> p c = false) ->
                             count p (trace a) = 0%nat).
      { intros p Hp. eapply count_none; [exact Hp|apply startup_actions_calls]. }
      assert (Hl : forall p, (forall c, loop_call c = true -> p c = false) ->
                             count p (trace l) = 0%nat).
      { intros p Hp. eapply count_none; [exact Hp|apply main_loop_calls]. }
      split; [|split].
      * rewrite !count_app, Ht, Hi, Ha, Hl by (now intros []). reflexivity.
      * rewrite !count_app, Hs, Hi, Ha, Hl by (now intros []). reflexivity.
      * rewrite !count_app, Hs, Hi, Ha, Hl by (now intros []). reflexivity.
    + intros Hin.
      apply in_app_or in Hin as [Hin|Hin]; [not_among Hin startup_calls|].
      apply in_app_or in Hin as [Hin|Hin]; [not_among Hin initialise_calls|].
      apply in_app_or in Hin as [Hin|Hin]; [not_among Hin startup_actions_calls|].
      not_among Hin main_loop_calls.
Qed.

Lemma startup_config (argv : list string) (w : World) (config : Configuration) :
  value (startup argv w) = inr config ->
  exists parsed v,
    In (CConfiguration internalConfigPath argv parsed) (trace (startup argv w)) /\
    In (CglfwGetWindowAttrib GLFW_TRANSPARENT_FRAMEBUFFER v) (trace (startup argv w)) /\
    config = set_preventTransparency (v =? GLFW_FALSE) parsed.
Proof.
  step_startup.
  destruct (init_ok w); cbn [negb]; [|discriminate].
  destruct (showHelp _); [discriminate|].
  destruct (showVersion _); [discriminate|].
  cbn -[In].
  destruct (window_created _ _ _ _); cbn -[In]; [|discriminate].
  destruct (gl3w_status _ =? 0); cbn -[In]; [|discriminate].
  destruct (gl3w_supported _ _ _); cbn -[In]; [|discriminate].
  intros [= <-]. do 2 eexists. split; [|split; [|reflexivity]]; cbn; tauto.
Qed.

Lemma initialise_renderer (config cfg : Configuration) (w : World) :
  In (CRenderer cfg) (trace (initialise config w)) -> cfg = config.
Proof.
  unfold initialise.
  destruct (empty (lastMidiPath config)), (empty (lastConfigPath config));
    cbn; intros Hin;
    repeat (destruct Hin as [Hin|Hin]; [try discriminate Hin|]); try contradiction;
    now injection Hin.
Qed.

(** X12. The renderer is constructed with the options as parsed, except for
    [preventTransparency], which is replaced by what the created window
    reports: it is set exactly when [glfwGetWindowAttrib] reports no
    transparent framebuffer, whatever was asked for. *)
Theorem renderer_gets_actual_transparency (argv : list string) (fuel : nat) (w : World)
        (cfg : Configuration) :
  let t := trace (main argv fuel w) in
  In (CRenderer cfg) t ->
  exists parsed v,
    In (CConfiguration internalConfigPath argv parsed) t /\
    In (CglfwGetWindowAttrib GLFW_TRANSPARENT_FRAMEBUFFER v) t /\
    cfg = set_preventTransparency (v =? GLFW_FALSE) parsed.
Proof.
  cbv zeta. rewrite main_unfold. cbv zeta.
  destruct (value (startup argv w)) as [k|config] eqn:Es; cbn [trace]; intros Hin.
  { not_among Hin startup_calls. }
  apply in_app_or in Hin as [Hin|Hin]; [not_among Hin startup_calls|].
  apply in_app_or in Hin as [Hin|Hin].
  - apply initialise_renderer in Hin. subst cfg.
    destruct (startup_config argv w config Es) as (parsed & v & Hp & Hv & Hc).
    exists parsed, v. split; [|split; [|exact Hc]]; apply in_or_app; now left.
  - exfalso. apply in_app_or in Hin as [Hin|Hin].
    + not_among Hin startup_actions_calls.
    + not_among Hin loop_and_teardown_calls.
Qed.

End Startup.

Section FrameInTick.

Context {World : Type} `{Host World}.

(** X13. The frame is not refreshed by what happens to the window between
    two actions: through a tick in which the renderer asks for anything but
    FULLSCREEN or RESIZE, the frame comes out as it went in, whatever events
    were polled and handed to the callbacks, a change of the framebuffer
    size included. *)
Theorem frame_survives_tick (frame : ivec4) (w : World) (time : double64) (a : SystemAction) :
  In (CRenderer_draw time a) (trace (tick frame w)) ->
  type a <> FULLSCREEN -> type a <> RESIZE ->
  value (tick frame w) = frame.
Proof.
  rewrite tick_unfold.
  set (w1 := exec CImGui_NewFrame _).
  set (action := draw_action (clock w1) w1).
  set (wd := exec (CRenderer_draw (clock w1) action) w1).
  set (delivered := deliver_all _ _).
  cbn [value trace]. intros Hin Hf Hr.
  assert (Ha : a = action).
  { cbn [app In] in Hin.
    repeat (destruct Hin as [Hin|Hin]; [try discriminate|]).
    - now injection Hin.
    - apply in_app_or in Hin as [Hin|Hin]; [not_among Hin performAction_calls|].
      cbn [app In] in Hin.
      repeat (destruct Hin as [Hin|Hin]; [discriminate|]).
      not_among Hin deliver_all_calls. }
  rewrite <- Ha. destruct (type a) eqn:E; try congruence.
  - now rewrite perform_none.
  - now rewrite perform_fix_size.
  - now rewrite perform_free_size.
  - now rewrite perform_quit.
Qed.

End FrameInTick.

(** ** The simulated environment and the further assumptions *)

Lemma sim_machine_kept (c : Call) (w : Sim.World) :
  Sim.machine (Sim.step c w) = Sim.machine w.
Proof.
  destruct c; try reflexivity.
  - destruct created; reflexivity.
  - destruct a; reflexivity.
  - destruct m; reflexivity.
Qed.

Lemma sim_capture_steady : @capture_steady Sim.World Sim.host.
Proof. intros c w _. cbn. now rewrite sim_machine_kept. Qed.

Lemma sim_monitor_reported : @monitor_reported Sim.World Sim.host.
Proof. intros m x y a b r w. destruct m; reflexivity. Qed.

Lemma sim_monitor_kept_by_swap_interval : @monitor_kept_by_swap_interval Sim.World Sim.host.
Proof. intros n w. reflexivity. Qed.

(** ** The further properties on concrete runs *)

Lemma ui_gets_every_input_witness :
  filter is_ui_input (trace (deliver_all some_events (window_with_ui true)))
  = [CImGui_ImplGlfw_KeyCallback 65 30 1 0; CImGui_ImplGlfw_ScrollCallback 0 1;
     CImGui_ImplGlfw_CharCallback 97].
Proof. exact (ui_gets_every_input some_events (window_with_ui true)). Defined.

Lemma renderer_gets_uncaptured_input_witness :
  filter is_renderer_input (trace (deliver_all some_events (window_with_ui false)))
  = [CRenderer_keyPressed 65 1; CRenderer_resize 1024 768] /\
  filter is_renderer_input (trace (deliver_all some_events (window_with_ui true)))
  = [CRenderer_resize 1024 768].
Proof.
  split.
  - exact (renderer_gets_uncaptured_input some_events (window_with_ui false)
             sim_capture_steady).
  - exact (renderer_gets_uncaptured_input some_events (window_with_ui true)
             sim_capture_steady).
Defined.

Lemma fullscreen_toggles_witness :
  window_monitor (world (performAction (action_of FULLSCREEN) frame_800x600
                                       (windowed_800x600 None [])))
  = Some Sim.the_monitor /\
  window_monitor (world (performAction (action_of FULLSCREEN) frame_800x600
                                       fullscreen_window)) = None.
Proof.
  split.
  - exact (fullscreen_toggles frame_800x600 (windowed_800x600 None [])
             sim_monitor_reported sim_monitor_kept_by_swap_interval).
  - exact (fullscreen_toggles frame_800x600 fullscreen_window
             sim_monitor_reported sim_monitor_kept_by_swap_interval).
Defined.

Lemma resize_in_fullscreen_forgets_backup_witness :
  window_monitor (exec (CglfwSetWindowSize 640 480) fullscreen_window)
  = Some Sim.the_monitor /\
  value (perform_all [mk_action RESIZE (mk_ivec4 640 480 0 0); action_of FULLSCREEN]
                     frame_800x600 fullscreen_window)
  = mk_ivec4 0 0 640 480.
Proof.
  split; [reflexivity|].
  exact (proj2 (resize_in_fullscreen_forgets_backup (mk_ivec4 640 480 0 0) frame_800x600
                  fullscreen_window Sim.the_monitor eq_refl)).
Defined.

Lemma loop_presents_every_frame_witness :
  let r := main_loop 1 frame_800x600
                     (windowed_800x600 None [action_of NONE; action_of NONE]) in
  value r = false /\ count is_draw (trace r) = 1%nat /\ count is_swap (trace r) = 1%nat.
Proof.
  pose proof (loop_presents_every_frame 1 frame_800x600
                (windowed_800x600 None [action_of NONE; action_of NONE])) as Hl.
  cbv zeta in Hl |- *. destruct Hl as (Hs & _ & _ & _ & Hf & _).
  split; [reflexivity|]. rewrite Hs. split; exact (Hf eq_refl).
Defined.

Lemma close_request_never_withdrawn_witness :
  In (CglfwSetWindowShouldClose 1) (trace (main [] 2 plain_boot)) /\ 1 = GLFW_TRUE.
Proof.
  assert (Hin : In (CglfwSetWindowShouldClose 1) (trace (main [] 2 plain_boot))).
  { vm_compute. tauto. }
  split; [exact Hin|].
  exact (close_request_never_withdrawn [] 2 plain_boot 1 Hin).
Defined.

Lemma loop_entered_with_vsync_witness :
  In (CglfwSwapInterval 1)
     (before_first is_loop_condition (trace (main [] 0 failing_export))).
Proof.
  apply (proj2 (proj2 (loop_entered_with_vsync [] 0 failing_export))).
  discriminate.
Defined.

Lemma scale_divisor_at_least_one_witness :
  In (CRenderer_resizeAndRescale 800 600 800 800) (trace (main [] 2 plain_boot)) /\
  1 <= 800.
Proof.
  assert (Hin : In (CRenderer_resizeAndRescale 800 600 800 800) (trace (main [] 2 plain_boot))).
  { vm_compute. tauto. }
  split; [exact Hin|].
  exact (proj1 (proj2 (scale_divisor_at_least_one [] 2 plain_boot 800 600 800 800 Hin))).
Defined.

Lemma releases_on_exit_witness :
  In (Cgl3wInit 1) (trace (main [] 2 no_opengl)) /\
  count is_terminate (trace (main [] 2 no_opengl)) = 0%nat.
Proof.
  assert (Hin : In (Cgl3wInit 1) (trace (main [] 2 no_opengl))).
  { vm_compute. tauto. }
  split; [exact Hin|].
  apply (proj1 (proj2 (releases_on_exit [] 2 no_opengl)) 1); [discriminate|exact Hin].
Defined.

Lemma renderer_gets_actual_transparency_witness :
  In (CRenderer Sim.plain_config) (trace (main [] 2 plain_boot)) /\
  exists parsed v,
    In (CConfiguration internalConfigPath [] parsed) (trace (main [] 2 plain_boot)) /\
    In (CglfwGetWindowAttrib GLFW_TRANSPARENT_FRAMEBUFFER v) (trace (main [] 2 plain_boot)) /\
    Sim.plain_config = set_preventTransparency (v =? GLFW_FALSE) parsed.
Proof.
  assert (Hin : In (CRenderer Sim.plain_config) (trace (main [] 2 plain_boot))).
  { vm_compute. tauto. }
  split; [exact Hin|].
  exact (renderer_gets_actual_transparency [] 2 plain_boot Sim.plain_config Hin).
Defined.

Lemma frame_survives_tick_witness :
  In (CRenderer_draw 0 (action_of NONE)) (trace (tick frame_800x600 window_with_input)) /\
  value (tick frame_800x600 window_with_input) = frame_800x600.
Proof.
  assert (Hin : In (CRenderer_draw 0 (action_of NONE))
                   (trace (tick frame_800x600 window_with_input))).
  { vm_compute. tauto. }
  split; [exact Hin|].
  apply (frame_survives_tick frame_800x600 window_with_input 0 (action_of NONE) Hin);
    discriminate.
Defined.
